(** * document-chat: the session-scoped RAG pipeline

    A shallow embedding of the backend of the document-chat service
    (app/core/session.py, app/services/document_service.py,
    app/services/vector_store_service.py, app/services/llm_service.py,
    app/services/query_service.py, app/api/routes/query.py) and the
    properties of its session registry, upload pipeline and query stream.

    Conventions of the embedding:
    - Python [int] is [Z]; [str] is [string]; [None | T] is [option T];
      a [dict] keyed by strings is a [gmap string _].
    - Python [float] values are only compared with integer bounds and
      printed with a fixed number of decimals here, so a finite float is
      carried as the rational it denotes ([Q]).
    - A call that may raise returns [Exn + A] ([inl] is the raised
      exception); a method that also mutates its object returns the new
      object next to the result.
    - An async generator is the list of the values it yields together with
      the way it ends ([Finished] or [Raised e]).
    - uuid4, utcnow, the temp-file name, the document loaders, Chroma and the
      Gemini client are collaborators outside the repository: what they
      return is an input of the function that calls them. *)

From Stdlib Require Import QArith Ascii.
From stdpp Require Import base strings list gmap pretty.

Local Open Scope Z_scope.
Local Open Scope string_scope.
Local Open Scope list_scope.

(** ** app/core/exceptions.py (and the built-in exceptions the code names) *)

#[warnings="-register-all"]
Inductive Exn : Type :=
| CollectionNotFoundError (collection_name : string)
| UnsupportedFileTypeError (extension : string) (allowed : list string)
| FileTooLargeError (size_mb : Q) (max_size_mb : Z)
| PageLimitExceededError (page_count max_pages : Z)
| ProcessingError (message : string) (original_error : option Exn)
| LLMError (message : string) (original_error : option Exn)
| NoActiveSessionError
| QueryError (message : string) (original_error : option Exn)
| DocumentProcessingError (message : string)
| ValueError (message : string)
| FileNotFoundError (message : string)
| ValidationError (message : string)
| OtherException (message : string).

(** Python truthiness of [str | None] and [int | None]. *)
Definition truthy_str (s : option string) : bool :=
  match s with
  | Some s => negb (String.eqb s "")
  | None => false
  end.

Definition truthy_int (n : option Z) : bool :=
  match n with
  | Some n => negb (Z.eqb n 0)
  | None => false
  end.

(** ** app/core/session.py *)

Module SessionState.
Record t : Type := mk {
  is_active : bool;
  filename : option string;
  page_count : Z;
  chunk_count : Z;
  created_at : option Z;
  collection_name : option string
}.

(** [SessionState()]: every field at its declared default. *)
Definition default : t :=
  {| is_active := false; filename := None; page_count := 0;
     chunk_count := 0; created_at := None; collection_name := None |}.
End SessionState.

Module SessionManager.
Import SessionState.

(** The singleton's only attribute is [_state]; a manager is its state. *)
Definition t : Type := SessionState.t.

(** [__new__] on first use. *)
Definition new : t := SessionState.default.

(** [create_session]; [uuid_hex] is [uuid.uuid4().hex] and [now] is
    [datetime.utcnow()]. *)
Definition create_session (uuid_hex : string) (now : Z)
    (filename : string) (page_count chunk_count : Z) (self : t) : string * t :=
  let collection_name := "session_" +:+ String.substring 0 12 uuid_hex in
  (collection_name,
   {| is_active := true;
      filename := Some filename;
      page_count := page_count;
      chunk_count := chunk_count;
      created_at := Some now;
      collection_name := Some collection_name |}).

Definition get_state (self : t) : SessionState.t := self.

Definition clear_session (self : t) : option string * t :=
  let old_collection_name := SessionState.collection_name self in
  (old_collection_name, SessionState.default).

Definition is_active (self : t) : bool := SessionState.is_active self.

Definition collection_name (self : t) : option string :=
  SessionState.collection_name self.

Definition reset_for_testing (self : t) : t := SessionState.default.

(** One call on the registry. *)
Inductive Op : Type :=
| CreateSession (uuid_hex : string) (now : Z)
    (filename : string) (page_count chunk_count : Z)
| ClearSession
| GetState
| IsActive
| CollectionName
| ResetForTesting.

Definition step (self : t) (op : Op) : t :=
  match op with
  | CreateSession u n f p c => snd (create_session u n f p c self)
  | ClearSession => snd (clear_session self)
  | GetState => let _ := get_state self in self
  | IsActive => let _ := is_active self in self
  | CollectionName => let _ := collection_name self in self
  | ResetForTesting => reset_for_testing self
  end.

Definition run (ops : list Op) : t := fold_left step ops new.

(** The registry invariant of the data model. *)
Definition consistent (s : SessionState.t) : Prop :=
  SessionState.is_active s = true <-> SessionState.collection_name s <> None.
End SessionManager.

(** ** Documents (langchain_core.documents.Document)

    The code reads a chunk's metadata under the keys "page", "chunk_index",
    "filename" and "source", and writes "filename", "file_type" and "source";
    the record keeps those entries, [None] for a key
    that is absent from the dict. *)

Module Metadata.
Record t : Type := mk {
  page : option Z;
  chunk_index : option Z;
  filename : option string;
  file_type : option string;
  source : option string
}.
Definition empty : t :=
  {| page := None; chunk_index := None; filename := None;
     file_type := None; source := None |}.
End Metadata.

Module Document.
Record t : Type := mk {
  page_content : string;
  metadata : Metadata.t
}.
End Document.

(** ** DocumentService._estimate_page_count *)

(** The loop of [_estimate_page_count]: [max_page] after the chunks seen. *)
Definition max_page_loop (max_page : Z) (chunks : list Document.t) : Z :=
  fold_left
    (fun max_page chunk =>
       match Metadata.page (Document.metadata chunk) with
       | Some p => Z.max max_page p
       | None => max_page
       end)
    chunks max_page.

Definition _estimate_page_count (chunks : list Document.t) : Z :=
  match chunks with
  | [] => 1
  | _ =>
      let max_page := max_page_loop 0 chunks in
      if Z.ltb 0 max_page then max_page
      else Z.max 1 (Z.of_nat (length chunks) / 3)
  end.

(** ** app/config.py *)

Module Settings.
Record t : Type := mk {
  max_page_limit : Z;
  chunk_size_tokens : Z;
  chunk_overlap_tokens : Z;
  top_k_chunks : Z;
  chroma_persist_dir : string;
  allowed_extensions : list string;
  max_file_size_mb : Z;
  debug : bool
}.

(** The declared defaults. *)
Definition default : t :=
  {| max_page_limit := 50; chunk_size_tokens := 500;
     chunk_overlap_tokens := 100; top_k_chunks := 3;
     chroma_persist_dir := "./chroma_data";
     allowed_extensions := ["pdf"; "txt"; "docx"];
     max_file_size_mb := 20; debug := false |}.
End Settings.

(** ** Calls that may raise: the error monad on [Exn + _] *)

#[global] Instance exn_ret : MRet (sum Exn) := fun _ x => inr x.
#[global] Instance exn_bind : MBind (sum Exn) := fun _ _ f m =>
  match m with
  | inl e => inl e
  | inr x => f x
  end.

(** [try: m  except Exception as e: raise wrap(e)]. *)
Definition reraise_as {A} (wrap : Exn -> Exn) (m : Exn + A) : Exn + A :=
  match m with
  | inl e => inl (wrap e)
  | inr x => inr x
  end.

(** ** Async generators *)

Inductive Ending : Type :=
| Finished
| Raised (e : Exn).

Module Stream.
Record t (A : Type) : Type := mk {
  yielded : list A;
  ending : Ending
}.
Arguments mk {A} _ _.
Arguments yielded {A} _.
Arguments ending {A} _.

Definition yield {A} (x : A) : t A := mk [x] Finished.
Definition raise {A} (e : Exn) : t A := mk [] (Raised e).

(** [s1] and, when it ends without raising, [s2] after it. *)
Definition seq {A} (s1 s2 : t A) : t A :=
  match ending s1 with
  | Finished => mk (yielded s1 ++ yielded s2) (ending s2)
  | Raised _ => s1
  end.

(** [try: s  except Exception as e: handler(e)]: what [s] yielded before it
    raised stays yielded. *)
Definition except {A} (s : t A) (handler : Exn -> t A) : t A :=
  match ending s with
  | Finished => s
  | Raised e => mk (yielded s ++ yielded (handler e)) (ending (handler e))
  end.
End Stream.

(** ** Text formatting of the standard library *)

Definition nl : string := String "010"%char EmptyString.

(** [str(n)] for an [int]. *)
Definition str_int (n : Z) : string := pretty n.

(** [format(x, ".2f")] for a finite float, exactly: the value is rounded to
    two decimals, ties to even. *)
Definition round_half_even (q : Q) : Z :=
  let n := Qnum q in
  let d := Zpos (Qden q) in
  let lo := n / d in
  let r := n mod d in
  match (2 * r) ?= d with
  | Lt => lo
  | Gt => lo + 1
  | Eq => if Z.even lo then lo else lo + 1
  end.

Definition format_fixed (digits : nat) (q : Q) : string :=
  let scale := 10 ^ Z.of_nat digits in
  let h := Z.abs (round_half_even (q * inject_Z scale)) in
  let frac := str_int (h mod scale) in
  (if Z.ltb (Qnum q) 0 then "-" else "")
    +:+ str_int (h / scale) +:+ "."
    +:+ String.concat "" (replicate (digits - String.length frac) "0")
    +:+ frac.

Definition format_2f : Q -> string := format_fixed 2.

(** [str(e)]: the message the exception was built with. *)
Definition str_exn (e : Exn) : string :=
  match e with
  | NoActiveSessionError => "No document loaded. Please upload a document first."
  | ProcessingError m _ | LLMError m _ | QueryError m _ => m
  | DocumentProcessingError m | ValueError m | FileNotFoundError m
  | ValidationError m | OtherException m => m
  | CollectionNotFoundError c => "Collection '" +:+ c +:+ "' not found"
  | UnsupportedFileTypeError extension allowed =>
      "File type '." +:+ extension +:+ "' is not supported. Allowed types: "
        +:+ String.concat ", " allowed
  | FileTooLargeError size_mb max_size_mb =>
      "File size " +:+ format_fixed 1 size_mb +:+ "MB exceeds limit of "
        +:+ str_int max_size_mb +:+ "MB"
  | PageLimitExceededError page_count max_pages =>
      "Document has " +:+ str_int page_count +:+ " pages, exceeds limit of "
        +:+ str_int max_pages +:+ " pages"
  end.

(** ** app/services/vector_store_service.py *)

Module RetrievedChunk.
Record t : Type := mk {
  content : string;
  page_number : Z;
  chunk_index : Z;
  relevance_score : Q;
  source : string
}.

(** The [Field] constraints: [ge=1], [ge=0], [ge=0, le=1]. *)
Definition valid (c : t) : bool :=
  Z.leb 1 (page_number c) && Z.leb 0 (chunk_index c)
  && Qle_bool 0 (relevance_score c) && Qle_bool (relevance_score c) 1.

(** [RetrievedChunk(...)]: pydantic validates at construction. *)
Definition make (content : string) (page_number chunk_index : Z)
    (relevance_score : Q) (source : string) : Exn + t :=
  let c := mk content page_number chunk_index relevance_score source in
  if valid c then inr c else inl (ValidationError "RetrievedChunk").
End RetrievedChunk.

(** A Chroma collection (langchain_chroma.Chroma): what its similarity search
    returns for a query text and [k], and whether deleting it raises. *)
Module Chroma.
Record t : Type := mk {
  similarity_search_with_relevance_scores :
    string -> Z -> Exn + list (Document.t * Q);
  delete_collection : Exn + unit
}.
End Chroma.

Module VectorStoreService.
Record t : Type := mk {
  (** [Chroma.from_documents] with the service's embeddings and persist
      directory, by documents and collection name *)
  from_documents : list Document.t -> string -> Exn + Chroma.t;
  _collections : gmap string Chroma.t
}.

Definition set_collections (m : gmap string Chroma.t) (self : t) : t :=
  mk (from_documents self) m.

Definition create_collection (collection_name : string)
    (documents : list Document.t) (self : t) : (Exn + Z) * t :=
  match _collections self !! collection_name with
  | Some _ =>
      (inl (ValueError ("Collection '" +:+ collection_name
                          +:+ "' already exists")), self)
  | None =>
      match from_documents self documents collection_name with
      | inl e => (inl e, self)
      | inr vectorstore =>
          (inr (Z.of_nat (length documents)),
           set_collections
             (<[collection_name := vectorstore]> (_collections self)) self)
      end
  end.

Definition get_collection (collection_name : string) (self : t)
    : Exn + Chroma.t :=
  match _collections self !! collection_name with
  | None => inl (CollectionNotFoundError collection_name)
  | Some collection => inr collection
  end.

(** The body of the conversion loop of [query]. *)
Definition to_chunk (result : Document.t * Q) : Exn + RetrievedChunk.t :=
  let '(doc, score) := result in
  let metadata := Document.metadata doc in
  RetrievedChunk.make
    (Document.page_content doc)
    (default 0 (Metadata.page metadata) + 1)
    (default 0 (Metadata.chunk_index metadata))
    score
    (default (default "unknown" (Metadata.source metadata))
       (Metadata.filename metadata)).

Definition query (settings : Settings.t) (collection_name query_text : string)
    (top_k : option Z) (self : t) : Exn + list RetrievedChunk.t :=
  collection ← get_collection collection_name self;
  let top_k :=
    match top_k with
    | None => Settings.top_k_chunks settings
    | Some top_k => top_k
    end in
  results ←
    Chroma.similarity_search_with_relevance_scores collection query_text top_k;
  mapM to_chunk results.

Definition delete_collection (collection_name : string) (self : t)
    : (Exn + bool) * t :=
  match _collections self !! collection_name with
  | None => (inr false, self)
  | Some collection =>
      match Chroma.delete_collection collection with
      | inl e => (inl e, self)
      | inr _ =>
          (inr true,
           set_collections (delete collection_name (_collections self)) self)
      end
  end.

(** The names of the collections held; their order is that of the map, not
    the order in which they were created. *)
Definition list_collections (self : t) : list string :=
  (map_to_list (_collections self)).*1.
End VectorStoreService.

(** ** app/services/llm_service.py *)

Module LLMService.
Inductive Message : Type :=
| SystemMessage (content : string)
| HumanMessage (content : string).

(** [_llm.astream(messages)]: the [content] of the chunks it produces, and
    how it ends. The content of a chunk is taken to be text, which is what
    [generate_stream] declares to yield; a chunk whose content is a list of
    parts is outside this model. *)
Record t : Type := mk {
  astream : list Message -> Stream.t string
}.

Definition build_messages (prompt : string) (system_prompt : option string)
    : list Message :=
  (if truthy_str system_prompt
   then [SystemMessage (default "" system_prompt)] else [])
  ++ [HumanMessage prompt].

Definition generate_stream (prompt : string) (system_prompt : option string)
    (self : t) : Stream.t string :=
  let messages := build_messages prompt system_prompt in
  let chunks := astream self messages in
  Stream.except
    (Stream.mk
       (filter (fun content => content ≠ "") (Stream.yielded chunks))
       (Stream.ending chunks))
    (fun e =>
       Stream.raise
         (LLMError "Failed to generate streaming response from LLM" (Some e))).
End LLMService.

(** ** app/models/schemas.py *)

Module QueryRequest.
Record t : Type := mk {
  query : string;
  top_k : option Z
}.

(** [min_length=1] on [query]; [ge=1, le=10] on a [top_k] that is given. *)
Definition valid (r : t) : bool :=
  Nat.leb 1 (String.length (query r))
  && match top_k r with
     | None => true
     | Some k => Z.leb 1 k && Z.leb k 10
     end.
End QueryRequest.

Module Source.
Record t : Type := mk {
  content : string;
  page_number : Z;
  chunk_index : Z;
  relevance_score : Q;
  filename : string
}.

Definition valid (s : t) : bool :=
  Z.leb 1 (page_number s) && Z.leb 0 (chunk_index s)
  && Qle_bool 0 (relevance_score s) && Qle_bool (relevance_score s) 1.

Definition make (content : string) (page_number chunk_index : Z)
    (relevance_score : Q) (filename : string) : Exn + t :=
  let s := mk content page_number chunk_index relevance_score filename in
  if valid s then inr s else inl (ValidationError "Source").
End Source.

Module DocumentUploadResponse.
Record t : Type := mk {
  filename : string;
  file_type : string;
  total_chunks : Z;
  message : string
}.
End DocumentUploadResponse.

(** ** app/services/query_service.py *)

Definition RAG_SYSTEM_PROMPT : string :=
  "You are a helpful assistant that answers questions based on the provided document context."
  +:+ nl +:+ nl +:+ "Instructions:" +:+ nl
  +:+ "- Answer the question based ONLY on the provided context" +:+ nl
  +:+ "- If the context doesn't contain enough information to answer, say so clearly"
  +:+ nl
  +:+ "- Be concise and direct in your answers" +:+ nl
  +:+ "- Reference specific parts of the document when relevant" +:+ nl
  +:+ "- Do not make up information not present in the context".

(** [RAG_USER_PROMPT_TEMPLATE.format(context=..., question=...)]. *)
Definition RAG_USER_PROMPT_TEMPLATE (context question : string) : string :=
  "Context from document:" +:+ nl +:+ context +:+ nl +:+ nl
  +:+ "---" +:+ nl +:+ nl
  +:+ "Question: " +:+ question +:+ nl +:+ nl
  +:+ "Answer:".

Module QueryContext.
Record t : Type := mk {
  chunks : list RetrievedChunk.t;
  formatted_context : string
}.
End QueryContext.

Module StreamingQueryResponse.
Record t : Type := mk {
  token : option string;
  sources : option (list Source.t);
  is_done : bool;
  error : option string
}.

(** The three ways the service builds one. *)
Definition of_token (tok : string) : t := mk (Some tok) None false None.
Definition of_sources (l : list Source.t) : t := mk None (Some l) false None.
Definition done : t := mk None None true None.
End StreamingQueryResponse.

Module QueryService.
Record t : Type := mk {
  _vector_store : VectorStoreService.t;
  _llm : LLMService.t;
  _session_manager : SessionManager.t;
  _top_k : Z
}.

Definition format_part (i : nat) (chunk : RetrievedChunk.t) : string :=
  "[Chunk " +:+ str_int (Z.of_nat i + 1)
  +:+ " - Page " +:+ str_int (RetrievedChunk.page_number chunk)
  +:+ ", Score: " +:+ format_2f (RetrievedChunk.relevance_score chunk)
  +:+ "]" +:+ nl +:+ RetrievedChunk.content chunk.

Definition _retrieve_context (settings : Settings.t)
    (question collection_name : string) (self : t) : Exn + QueryContext.t :=
  chunks ← VectorStoreService.query settings collection_name question
             (Some (_top_k self)) (_vector_store self);
  let formatted_parts := imap format_part chunks in
  let formatted_context := String.concat (nl +:+ nl) formatted_parts in
  mret (QueryContext.mk chunks formatted_context).

Definition _build_prompt (question : string) (context : QueryContext.t)
    : string :=
  RAG_USER_PROMPT_TEMPLATE (QueryContext.formatted_context context) question.

Definition to_source (chunk : RetrievedChunk.t) : Exn + Source.t :=
  Source.make (RetrievedChunk.content chunk)
    (RetrievedChunk.page_number chunk)
    (RetrievedChunk.chunk_index chunk)
    (RetrievedChunk.relevance_score chunk)
    (RetrievedChunk.source chunk).

Definition _chunks_to_sources (chunks : list RetrievedChunk.t)
    : Exn + list Source.t :=
  mapM to_source chunks.

(** Step 4 of [query_stream]: the inner [try] around the token loop. *)
Definition stream_tokens (prompt : string) (self : t)
    : Stream.t StreamingQueryResponse.t :=
  let tokens :=
    LLMService.generate_stream prompt (Some RAG_SYSTEM_PROMPT) (_llm self) in
  Stream.except
    (Stream.mk (StreamingQueryResponse.of_token <$> Stream.yielded tokens)
       (Stream.ending tokens))
    (fun e =>
       match e with
       | LLMError _ _ =>
           Stream.raise
             (QueryError "Failed to generate response from LLM" (Some e))
       | _ => Stream.raise e
       end).

(** The body of the outer [try] of [query_stream]. *)
Definition query_stream_body (settings : Settings.t) (question : string)
    (self : t) : Stream.t StreamingQueryResponse.t :=
  if negb (SessionManager.is_active (_session_manager self))
  then Stream.raise NoActiveSessionError
  else
    let collection_name :=
      SessionManager.collection_name (_session_manager self) in
    if negb (truthy_str collection_name)
    then Stream.raise NoActiveSessionError
    else
      let collection_name := default "" collection_name in
      match reraise_as
              (fun e =>
                 QueryError
                   "Failed to retrieve relevant context from vector store"
                   (Some e))
              (_retrieve_context settings question collection_name self)
      with
      | inl e => Stream.raise e
      | inr context =>
          let prompt := _build_prompt question context in
          Stream.seq (stream_tokens prompt self)
            match _chunks_to_sources (QueryContext.chunks context) with
            | inl e => Stream.raise e
            | inr sources =>
                Stream.seq
                  (Stream.yield (StreamingQueryResponse.of_sources sources))
                  (Stream.yield StreamingQueryResponse.done)
            end
      end.

Definition query_stream (settings : Settings.t) (question : string)
    (self : t) : Stream.t StreamingQueryResponse.t :=
  Stream.except (query_stream_body settings question self)
    (fun e =>
       match e with
       | NoActiveSessionError => Stream.raise e
       | QueryError _ _ => Stream.raise e
       | _ =>
           Stream.raise
             (QueryError "An unexpected error occurred during query" (Some e))
       end).

(** [get_query_service]: the service FastAPI injects into the routes. *)
Definition get_query_service (vector_store_service : VectorStoreService.t)
    (llm_service : LLMService.t) (session_manager : SessionManager.t)
    (settings : Settings.t) : t :=
  mk vector_store_service llm_service session_manager
     (Settings.top_k_chunks settings).
End QueryService.

(** ** app/api/routes/query.py *)

(** The payload an event carries before [json.dumps]. *)
Inductive EventData : Type :=
| TokenData (token : string)
| SourcesData (sources : list Source.t)
| StatusData (status : string)
| ErrorData (error : string).

Module ServerSentEvent.
Record t : Type := mk {
  event : string;
  data : EventData
}.
End ServerSentEvent.

Module QueryRoute.
Import StreamingQueryResponse.

Definition error_event (message : string) : ServerSentEvent.t :=
  ServerSentEvent.mk "error" (ErrorData message).

(** The events one response of the service turns into, and whether the
    generator returns after them. *)
Definition on_response (response : StreamingQueryResponse.t)
    : list ServerSentEvent.t * bool :=
  if truthy_str (error response)
  then ([error_event (default "" (error response))], true)
  else
    ((match token response with
      | Some tok => [ServerSentEvent.mk "token" (TokenData tok)]
      | None => []
      end)
     ++ (match sources response with
         | Some l => [ServerSentEvent.mk "sources" (SourcesData l)]
         | None => []
         end)
     ++ (if is_done response
         then [ServerSentEvent.mk "done" (StatusData "complete")]
         else []),
     false).

(** The [async for] loop over the service's stream; it stops consuming at
    the [return]. *)
Fixpoint event_loop (responses : list StreamingQueryResponse.t)
    (ending : Ending) : Stream.t ServerSentEvent.t :=
  match responses with
  | [] => Stream.mk [] ending
  | response :: rest =>
      let '(events, returned) := on_response response in
      if returned then Stream.mk events Finished
      else Stream.seq (Stream.mk events Finished) (event_loop rest ending)
  end.

Definition event_generator (settings : Settings.t) (request : QueryRequest.t)
    (query_service : QueryService.t) : Stream.t ServerSentEvent.t :=
  let responses :=
    QueryService.query_stream settings (QueryRequest.query request)
      query_service in
  Stream.except
    (event_loop (Stream.yielded responses) (Stream.ending responses))
    (fun e =>
       match e with
       | NoActiveSessionError => Stream.yield (error_event (str_exn e))
       | QueryError _ _ => Stream.yield (error_event (str_exn e))
       | _ => Stream.yield (error_event "An unexpected error occurred")
       end).

(** [query_document]: the body of the [EventSourceResponse]. *)
Definition query_document (settings : Settings.t) (request : QueryRequest.t)
    (query_service : QueryService.t) : Stream.t ServerSentEvent.t :=
  event_generator settings request query_service.
End QueryRoute.

(** ** pathlib and [str] methods used on file names

    [Path(p).name] and [Path(p).suffix] for POSIX paths, as CPython's pathlib
    computes them: the name is the last component that is neither empty nor
    ["."]; the suffix starts at the last dot of the name unless that dot is
    its first or its last character. *)

Fixpoint split_on (sep : ascii) (s : string) : list string :=
  match s with
  | EmptyString => [EmptyString]
  | String c rest =>
      match split_on sep rest with
      | [] => [EmptyString]
      | part :: parts =>
          if Ascii.eqb c sep then EmptyString :: part :: parts
          else String c part :: parts
      end
  end.

Definition path_name (p : string) : string :=
  default "" (last (filter (fun part => part ≠ "" ∧ part ≠ ".") (split_on "/" p))).

(** [s.rfind(".")], [None] for -1. *)
Fixpoint rfind_dot (s : string) : option nat :=
  match s with
  | EmptyString => None
  | String c rest =>
      match rfind_dot rest with
      | Some i => Some (S i)
      | None => if Ascii.eqb c "." then Some O else None
      end
  end.

Definition path_suffix (p : string) : string :=
  let name := path_name p in
  match rfind_dot name with
  | Some i =>
      if Nat.ltb 0 i && Nat.ltb i (String.length name - 1)
      then String.substring i (String.length name - i) name
      else ""
  | None => ""
  end.

(** [s.lstrip(".")]. *)
Fixpoint lstrip_dot (s : string) : string :=
  match s with
  | String c rest => if Ascii.eqb c "." then lstrip_dot rest else s
  | EmptyString => s
  end.

Definition map_ascii (f : nat -> nat) (c : ascii) : ascii :=
  ascii_of_nat (f (nat_of_ascii c)).

(** [s.lower()] and [s.upper()] on ASCII text: the letters A to Z and a to z
    change case, every other character is kept as it is. *)
Fixpoint lower (s : string) : string :=
  match s with
  | EmptyString => EmptyString
  | String c rest =>
      String (map_ascii (fun n => if Nat.leb 65 n && Nat.leb n 90
                                  then (n + 32)%nat else n) c) (lower rest)
  end.

Fixpoint upper (s : string) : string :=
  match s with
  | EmptyString => EmptyString
  | String c rest =>
      String (map_ascii (fun n => if Nat.leb 97 n && Nat.leb n 122
                                  then (n - 32)%nat else n) c) (upper rest)
  end.

(** [Path(p).suffix.lstrip(".").lower()]. *)
Definition extension_of (p : string) : string :=
  lower (lstrip_dot (path_suffix p)).

(** ** app/core/document_processor.py *)

Module ProcessedDocument.
Record t : Type := mk {
  filename : string;
  file_type : string;
  total_chunks : Z;
  chunks : list Document.t
}.
End ProcessedDocument.

Module DocumentProcessor.
(** The LangChain collaborators: the loader of a file type applied to a
    path and the content stored there, and the text splitter. *)
Record t : Type := mk {
  load : string -> string -> string -> Exn + list Document.t;
  split_documents : list Document.t -> Exn + list Document.t
}.

Definition _LOADERS : list string := ["pdf"; "docx"; "txt"].

Definition _load_document (path content file_extension : string) (self : t)
    : Exn + list Document.t :=
  reraise_as
    (fun e =>
       DocumentProcessingError
         ("Failed to load " +:+ upper file_extension +:+ " file: "
            +:+ str_exn e))
    (documents ← load self file_extension path content;
     match documents with
     | [] =>
         mret [Document.mk ""
                 {| Metadata.page := None; Metadata.chunk_index := None;
                    Metadata.filename := Some (path_name path);
                    Metadata.file_type := Some file_extension;
                    Metadata.source := Some path |}]
     | _ => mret documents
     end).

(** [chunk.metadata.update({...})]. *)
Definition enrich (path file_extension : string) (chunk : Document.t)
    : Document.t :=
  let metadata := Document.metadata chunk in
  Document.mk (Document.page_content chunk)
    {| Metadata.page := Metadata.page metadata;
       Metadata.chunk_index := Metadata.chunk_index metadata;
       Metadata.filename := Some (path_name path);
       Metadata.file_type := Some file_extension;
       Metadata.source := Some path |}.

(** [process_document(path)]; [stored] is the content of the file at
    [path], [None] when no such file exists. *)
Definition process_document (path : string) (stored : option string)
    (self : t) : Exn + ProcessedDocument.t :=
  match stored with
  | None => inl (FileNotFoundError ("File not found: " +:+ path))
  | Some content =>
      let file_extension := extension_of path in
      if bool_decide (file_extension ∈ _LOADERS) then
        documents ←
          reraise_as
            (fun e =>
               DocumentProcessingError
                 ("Failed to load document: " +:+ str_exn e))
            (_load_document path content file_extension self);
        chunks ←
          reraise_as
            (fun e =>
               DocumentProcessingError
                 ("Failed to split document into chunks: " +:+ str_exn e))
            (split_documents self documents);
        let chunks := enrich path file_extension <$> chunks in
        mret (ProcessedDocument.mk (path_name path) file_extension
                (Z.of_nat (length chunks)) chunks)
      else
        inl (ValueError
               ("Unsupported file extension: '" +:+ file_extension
                  +:+ "'. Supported extensions: "
                  +:+ String.concat ", " _LOADERS))
  end.
End DocumentProcessor.

(** ** app/services/document_service.py *)

Module UploadFile.
(** [read] is what [await file.read()] gives. *)
Record t : Type := mk {
  filename : option string;
  size : option Z;
  read : Exn + string
}.
End UploadFile.

(** The two process-wide singletons an upload mutates. *)
Module World.
Record t : Type := mk {
  session_manager : SessionManager.t;
  vector_store : VectorStoreService.t
}.
End World.

(** What the runtime supplies during one upload: the name
    [NamedTemporaryFile] picks (before the suffix), [uuid.uuid4().hex] and
    [datetime.utcnow()]. *)
Module Env.
Record t : Type := mk {
  tmp_name : string;
  uuid_hex : string;
  now : Z
}.
End Env.

(** Methods that read and write the singletons and may raise. *)
Definition Upload (A : Type) : Type := World.t -> (Exn + A) * World.t.

#[global] Instance upload_ret : MRet Upload := fun _ x w => (inr x, w).
#[global] Instance upload_bind : MBind Upload := fun _ _ f m w =>
  match m w with
  | (inl e, w') => (inl e, w')
  | (inr x, w') => f x w'
  end.

Module Upload.
Definition raise {A} (e : Exn) : Upload A := fun w => (inl e, w).

Definition lift {A} (r : Exn + A) : Upload A := fun w => (r, w).

(** [try: m  except Exception as e: handler(e)]. *)
Definition except {A} (m : Upload A) (handler : Exn -> Upload A) : Upload A :=
  fun w =>
    match m w with
    | (inl e, w') => handler e w'
    | (inr x, w') => (inr x, w')
    end.

Definition session {A} (f : SessionManager.t -> A * SessionManager.t)
    : Upload A :=
  fun w =>
    let '(x, s) := f (World.session_manager w) in
    (inr x, World.mk s (World.vector_store w)).

Definition read_session {A} (f : SessionManager.t -> A) : Upload A :=
  fun w => (inr (f (World.session_manager w)), w).

Definition store {A}
    (f : VectorStoreService.t -> (Exn + A) * VectorStoreService.t)
    : Upload A :=
  fun w =>
    let '(r, v) := f (World.vector_store w) in
    (r, World.mk (World.session_manager w) v).
End Upload.

Module DocumentService.
(** [_document_processor.process_document], by the path it is given and
    the content stored there; [_session_manager] and [_vector_store] are
    the singletons of [World.t]. *)
Record t : Type := mk {
  _document_processor : string -> string -> Exn + ProcessedDocument.t;
  _settings : Settings.t
}.

Definition check_extension (file : UploadFile.t) (self : t) : Exn + unit :=
  if truthy_str (UploadFile.filename file) then
    let extension := extension_of (default "" (UploadFile.filename file)) in
    let allowed := Settings.allowed_extensions (_settings self) in
    if bool_decide (extension ∈ allowed) then inr ()
    else inl (UnsupportedFileTypeError extension allowed)
  else inr ().

(** [file.size / (1024 * 1024)] is a float in the code and an exact
    rational here; the two agree for every size below 2^53 bytes, where the
    quotient by 2^20 is a float. *)
Definition check_size (file : UploadFile.t) (self : t) : Exn + unit :=
  if truthy_int (UploadFile.size file) then
    let size : Z := default 0 (UploadFile.size file) in
    let size_mb := Qdiv (inject_Z size) (inject_Z (1024 * 1024)) in
    let max_size_mb := Settings.max_file_size_mb (_settings self) in
    if negb (Qle_bool size_mb (inject_Z max_size_mb))
    then inl (FileTooLargeError size_mb max_size_mb)
    else inr ()
  else inr ().

Definition _validate_file (file : UploadFile.t) (self : t) : Exn + unit :=
  _ ← check_extension file self;
  check_size file self.

(** Returns the path of the temp file and the content written to it. *)
Definition _save_temp_file (file : UploadFile.t) (env : Env.t)
    : Exn + (string * string) :=
  let suffix :=
    if truthy_str (UploadFile.filename file)
    then path_suffix (default "" (UploadFile.filename file))
    else ".tmp" in
  content ← UploadFile.read file;
  mret (Env.tmp_name env +:+ suffix, content).

Definition _cleanup_old_session : Upload unit :=
  active ← Upload.read_session SessionManager.is_active;
  if active : bool then
    old_collection ← Upload.read_session SessionManager.collection_name;
    _ ← (if truthy_str old_collection then
           Upload.except
             (_ ← Upload.store
                    (VectorStoreService.delete_collection
                       (default "" old_collection));
              mret ())
             (fun _ => mret ())
         else mret ());
    _ ← Upload.session SessionManager.clear_session;
    mret ()
  else mret ().

(** Steps 4 to 8 of [process_upload], after the temp file is saved and the
    old session cleaned up. [except ValueError] also takes pydantic's
    [ValidationError], which is a [ValueError]. *)
Definition process_saved (file : UploadFile.t) (env : Env.t)
    (temp_file_path content : string) (self : t)
    : Upload DocumentUploadResponse.t :=
  processed_doc ←
    Upload.lift
      (reraise_as
         (fun e =>
            match e with
            | ValueError _ | ValidationError _ =>
                UnsupportedFileTypeError (extension_of temp_file_path)
                  (Settings.allowed_extensions (_settings self))
            | DocumentProcessingError _ =>
                ProcessingError
                  ("Failed to process document: " +:+ str_exn e) (Some e)
            | _ => e
            end)
         (_document_processor self temp_file_path content));
  let page_count :=
    _estimate_page_count (ProcessedDocument.chunks processed_doc) in
  if Z.ltb (Settings.max_page_limit (_settings self)) page_count then
    Upload.raise
      (PageLimitExceededError page_count
         (Settings.max_page_limit (_settings self)))
  else
    let original_filename :=
      if truthy_str (UploadFile.filename file)
      then default "" (UploadFile.filename file)
      else ProcessedDocument.filename processed_doc in
    collection_name ←
      Upload.session
        (SessionManager.create_session (Env.uuid_hex env) (Env.now env)
           original_filename page_count
           (ProcessedDocument.total_chunks processed_doc));
    _ ← Upload.except
          (Upload.store
             (VectorStoreService.create_collection collection_name
                (ProcessedDocument.chunks processed_doc)))
          (fun e =>
             _ ← Upload.session SessionManager.clear_session;
             Upload.raise
               (ProcessingError "Failed to create vector store collection"
                  (Some e)));
    mret (DocumentUploadResponse.mk original_filename
            (ProcessedDocument.file_type processed_doc)
            (ProcessedDocument.total_chunks processed_doc)
            "Document uploaded and processed successfully").

(** The [except] clauses of [process_upload]: the four expected errors are
    raised again, any other exception is wrapped. *)
Definition expected_or_wrapped (e : Exn) : Exn :=
  match e with
  | UnsupportedFileTypeError _ _ | FileTooLargeError _ _
  | PageLimitExceededError _ _ | ProcessingError _ _ => e
  | _ =>
      ProcessingError
        "An unexpected error occurred during document processing" (Some e)
  end.

(** The body of the [try] of [process_upload]. *)
Definition process_upload_body (file : UploadFile.t) (env : Env.t) (self : t)
    : Upload DocumentUploadResponse.t :=
  _ ← Upload.lift (_validate_file file self);
  saved ← Upload.lift (_save_temp_file file env);
  _ ← _cleanup_old_session;
  process_saved file env saved.1 saved.2 self.

(** The temp file is removed in the [finally]; the file system is not part
    of [World.t]. *)
Definition process_upload (file : UploadFile.t) (env : Env.t) (self : t)
    : Upload DocumentUploadResponse.t :=
  Upload.except (process_upload_body file env self)
    (fun e => Upload.raise (expected_or_wrapped e)).

(** [get_document_service] wires the real [DocumentProcessor]; the file it
    is handed exists, since [_save_temp_file] has just written it. *)
Definition get_document_service (document_processor : DocumentProcessor.t)
    (settings : Settings.t) : t :=
  mk (fun path content =>
        DocumentProcessor.process_document path (Some content)
          document_processor)
     settings.
End DocumentService.

(** ** The HTTP layer: app/api/routes/health.py, documents.py and the
    non-streaming query route of app/api/routes/query.py *)

Module QueryResponse.
Record t : Type := mk {
  answer : string;
  sources : list Source.t
}.
End QueryResponse.

Module HealthResponse.
Record t : Type := mk {
  status : string;
  version : string;
  session_active : bool;
  document_loaded : bool;
  filename : option string;
  page_count : option Z;
  chunk_count : option Z
}.
End HealthResponse.

(** [fastapi.HTTPException(status_code=..., detail=...)]. *)
Module HTTPException.
Record t : Type := mk {
  status_code : Z;
  detail : string
}.
End HTTPException.

(** How a route handler ends: with its response, with an [HTTPException], or
    with an exception none of its [except] clauses takes. *)
Inductive Outcome (A : Type) : Type :=
| Responded (response : A)
| HTTPRaised (e : HTTPException.t)
| Escaped (e : Exn).
Arguments Responded {A} _.
Arguments HTTPRaised {A} _.
Arguments Escaped {A} _.

Module HealthRoute.
Definition health_check (session_manager : SessionManager.t)
    : HealthResponse.t :=
  let state := SessionManager.get_state session_manager in
  {| HealthResponse.status := "healthy";
     HealthResponse.version := "0.1.0";
     HealthResponse.session_active := SessionState.is_active state;
     HealthResponse.document_loaded := SessionState.is_active state;
     HealthResponse.filename := SessionState.filename state;
     HealthResponse.page_count :=
       if SessionState.is_active state
       then Some (SessionState.page_count state) else None;
     HealthResponse.chunk_count :=
       if SessionState.is_active state
       then Some (SessionState.chunk_count state) else None |}.
End HealthRoute.

Module DocumentsRoute.
(** The [except] clauses of [upload_document]. *)
Definition to_http {A} (e : Exn) : Outcome A :=
  match e with
  | UnsupportedFileTypeError _ _ => HTTPRaised (HTTPException.mk 400 (str_exn e))
  | FileTooLargeError _ _ => HTTPRaised (HTTPException.mk 413 (str_exn e))
  | PageLimitExceededError _ _ => HTTPRaised (HTTPException.mk 400 (str_exn e))
  | ProcessingError _ _ => HTTPRaised (HTTPException.mk 422 (str_exn e))
  | _ => Escaped e
  end.

Definition upload_document (file : UploadFile.t) (env : Env.t)
    (document_service : DocumentService.t) (w : World.t)
    : Outcome DocumentUploadResponse.t * World.t :=
  match DocumentService.process_upload file env document_service w with
  | (inr response, w') => (Responded response, w')
  | (inl e, w') => (to_http e, w')
  end.
End DocumentsRoute.

Module QuerySyncRoute.
Import StreamingQueryResponse.

(** The body of the [async for] of [query_document_sync]: [tokens] and
    [sources] after one more response. *)
Definition collect (acc : list string * list Source.t)
    (response : StreamingQueryResponse.t) : list string * list Source.t :=
  let tokens :=
    if truthy_str (token response)
    then acc.1 ++ [default "" (token response)] else acc.1 in
  let sources :=
    match StreamingQueryResponse.sources response with
    | Some (source :: rest) => source :: rest
    | _ => acc.2
    end in
  (tokens, sources).

Definition query_document_sync (settings : Settings.t)
    (request : QueryRequest.t) (query_service : QueryService.t)
    : Outcome QueryResponse.t :=
  let responses :=
    QueryService.query_stream settings (QueryRequest.query request)
      query_service in
  let '(tokens, sources) := fold_left collect (Stream.yielded responses) ([], []) in
  match Stream.ending responses with
  | Finished => Responded (QueryResponse.mk (String.concat "" tokens) sources)
  | Raised NoActiveSessionError =>
      HTTPRaised (HTTPException.mk 400 (str_exn NoActiveSessionError))
  | Raised (QueryError m o) =>
      HTTPRaised (HTTPException.mk 422 (str_exn (QueryError m o)))
  | Raised e => Escaped e
  end.
End QuerySyncRoute.

(** * Vocabulary of the statements and example inputs *)

(** The page values found in the metadata of the chunks, in order. *)
Definition observed_pages (chunks : list Document.t) : list Z :=
  omap (fun chunk => Metadata.page (Document.metadata chunk)) chunks.

Definition is_max_of (m : Z) (l : list Z) : Prop :=
  m ∈ l ∧ ∀ p, p ∈ l → p <= m.

Definition chunk_with_page (p : Z) : Document.t :=
  Document.mk "text"
    {| Metadata.page := Some p; Metadata.chunk_index := None;
       Metadata.filename := None; Metadata.file_type := None;
       Metadata.source := None |}.

Definition chunk_without_page : Document.t := Document.mk "text" Metadata.empty.

Definition pages_1_1_2_3_3_3 : list Document.t :=
  chunk_with_page <$> [1; 1; 2; 3; 3; 3].

Definition twelve_plain_chunks : list Document.t :=
  replicate 12 chunk_without_page.

(** The source a retrieved chunk is cited as: the same five values. *)
Definition source_of (chunk : RetrievedChunk.t) : Source.t :=
  Source.mk (RetrievedChunk.content chunk) (RetrievedChunk.page_number chunk)
    (RetrievedChunk.chunk_index chunk) (RetrievedChunk.relevance_score chunk)
    (RetrievedChunk.source chunk).

(** The four kinds of event of the query stream. *)
Definition token_event (tok : string) : ServerSentEvent.t :=
  ServerSentEvent.mk "token" (TokenData tok).
Definition sources_event (l : list Source.t) : ServerSentEvent.t :=
  ServerSentEvent.mk "sources" (SourcesData l).
Definition done_event : ServerSentEvent.t :=
  ServerSentEvent.mk "done" (StatusData "complete").

Definition count_events (name : string) (events : list ServerSentEvent.t) : nat :=
  length (filter (fun ev => ServerSentEvent.event ev = name) events).

(** Example inputs: a session for report.pdf, a collection of ten passages
    whose search returns the [k] best, and two Gemini clients. *)
Definition example_passage (i : Z) : Document.t * Q :=
  (Document.mk ("passage " +:+ str_int i)
     {| Metadata.page := Some i; Metadata.chunk_index := Some i;
        Metadata.filename := Some "report.pdf";
        Metadata.file_type := Some "pdf";
        Metadata.source := Some "/tmp/tmpab12cd.pdf" |},
   ((10 - i) # 10)%Q).

Definition example_collection : Chroma.t :=
  Chroma.mk
    (fun _ k => inr (take (Z.to_nat k) (example_passage <$> seqZ 0 10)))
    (inr ()).

Definition example_session : SessionManager.t :=
  (SessionManager.create_session "0123456789abcdef0123456789abcdef" 0
     "report.pdf" 3 9 SessionManager.new).2.

Definition example_store : VectorStoreService.t :=
  VectorStoreService.mk (fun _ _ => inr example_collection)
    {[ "session_0123456789ab" := example_collection ]}.

Definition example_llm : LLMService.t :=
  LLMService.mk (fun _ => Stream.mk ["The "; "answer "; ""; "is "; "X."] Finished).

Definition failing_llm : LLMService.t :=
  LLMService.mk
    (fun _ => Stream.mk ["The "; ""; "answer "]
                (Raised (OtherException "connection reset"))).

Definition example_service : QueryService.t :=
  QueryService.get_query_service example_store example_llm example_session
    Settings.default.

Definition failing_service : QueryService.t :=
  QueryService.get_query_service example_store failing_llm example_session
    Settings.default.

Definition idle_service : QueryService.t :=
  QueryService.get_query_service example_store example_llm SessionManager.new
    Settings.default.

(** What retrieval returns for the example question. *)
Definition example_context : QueryContext.t :=
  match QueryService._retrieve_context Settings.default "What is X?"
          "session_0123456789ab" example_service with
  | inr context => context
  | inl _ => QueryContext.mk [] ""
  end.

(** Example uploads: report.pdf into a world that holds the example session,
    with a processor that returns six chunks, and a store whose embedding
    backend is down. *)
Definition example_upload : UploadFile.t :=
  UploadFile.mk (Some "report.pdf") (Some 1024) (inr "%PDF-1.7").

Definition nameless_upload : UploadFile.t :=
  UploadFile.mk None (Some 0) (inr "plain text").

Definition example_env : Env.t :=
  Env.mk "/tmp/tmpab12cd" "fedcba9876543210fedcba9876543210" 60.

Definition example_document_service : DocumentService.t :=
  DocumentService.mk
    (fun path _ =>
       inr (ProcessedDocument.mk (path_name path) (extension_of path) 6
              pages_1_1_2_3_3_3))
    Settings.default.

Definition failing_document_service : DocumentService.t :=
  DocumentService.mk (fun _ _ => inl (DocumentProcessingError "corrupt file"))
    Settings.default.

Definition broken_store : VectorStoreService.t :=
  VectorStoreService.mk (fun _ _ => inl (OtherException "embedding backend down"))
    {[ "session_0123456789ab" := example_collection ]}.

Definition example_world : World.t := World.mk example_session example_store.
Definition broken_world : World.t := World.mk example_session broken_store.

(** The registry names only collections the store holds. *)
Definition references_existing_collection (w : World.t) : Prop :=
  ∀ c, SessionManager.collection_name (World.session_manager w) = Some c →
       is_Some (VectorStoreService._collections (World.vector_store w) !! c).

(** In a state the registry can reach, an inactive registry holds nothing. *)
Definition idle_is_default (s : SessionState.t) : Prop :=
  SessionState.is_active s = false → s = SessionState.default.

(** Nine chunks of a one-page PDF, as a loader that numbers pages from 0
    labels them. *)
Definition nine_chunks_of_page_0 : list Document.t :=
  replicate 9 (chunk_with_page 0).

(** The chunk [query] builds from one search result, before validation. *)
Definition chunk_of_result (result : Document.t * Q) : RetrievedChunk.t :=
  let metadata := Document.metadata result.1 in
  RetrievedChunk.mk
    (Document.page_content result.1)
    (default 0 (Metadata.page metadata) + 1)
    (default 0 (Metadata.chunk_index metadata))
    result.2
    (default (default "unknown" (Metadata.source metadata))
       (Metadata.filename metadata)).

(** More example inputs: a store without collections, a collection that
    cannot be deleted, and one whose search returns a negative score. *)
Definition empty_store : VectorStoreService.t :=
  VectorStoreService.mk (fun _ _ => inr example_collection) ∅.

Definition stuck_collection : Chroma.t :=
  Chroma.mk (fun _ _ => inr []) (inl (OtherException "database is locked")).

Definition stuck_store : VectorStoreService.t :=
  VectorStoreService.mk (fun _ _ => inr example_collection)
    {[ "session_0123456789ab" := stuck_collection ]}.

Definition skewed_collection : Chroma.t :=
  Chroma.mk
    (fun _ _ =>
       inr [example_passage 0;
            (Document.mk "far away" Metadata.empty, (-1 # 10)%Q);
            example_passage 1])
    (inr ()).

Definition skewed_store : VectorStoreService.t :=
  VectorStoreService.mk (fun _ _ => inr example_collection)
    {[ "session_0123456789ab" := skewed_collection ]}.

(** The four ways a query goes, with what each leaves on the stream of
    [query_stream]. *)
Inductive QueryCourse : Type :=
| NoSession
| RetrievalFailed (cause : Exn)
| GenerationFailed (tokens : list string) (cause : Exn)
| Completed (tokens : list string) (sources : list Source.t).

Definition stream_of_course (course : QueryCourse)
    : Stream.t StreamingQueryResponse.t :=
  match course with
  | NoSession => Stream.mk [] (Raised NoActiveSessionError)
  | RetrievalFailed cause =>
      Stream.mk []
        (Raised
           (QueryError "Failed to retrieve relevant context from vector store"
              (Some cause)))
  | GenerationFailed tokens cause =>
      Stream.mk (StreamingQueryResponse.of_token <$> tokens)
        (Raised
           (QueryError "Failed to generate response from LLM"
              (Some
                 (LLMError "Failed to generate streaming response from LLM"
                    (Some cause)))))
  | Completed tokens sources =>
      Stream.mk
        ((StreamingQueryResponse.of_token <$> tokens)
           ++ [StreamingQueryResponse.of_sources sources;
               StreamingQueryResponse.done])
        Finished
  end.

Definition tokens_of_course (course : QueryCourse) : list string :=
  match course with
  | NoSession | RetrievalFailed _ => []
  | GenerationFailed tokens _ | Completed tokens _ => tokens
  end.

(** The event that reports a failure to the client. *)
Definition failure_event (message : string) : ServerSentEvent.t :=
  ServerSentEvent.mk "error" (ErrorData message).

(** The exceptions [query_stream] documents. *)
Definition is_query_failure (e : Exn) : Prop :=
  e = NoActiveSessionError ∨ ∃ message cause, e = QueryError message cause.

(** A service whose session names a collection the store does not hold. *)
Definition orphaned_service : QueryService.t :=
  QueryService.get_query_service empty_store example_llm example_session
    Settings.default.

(** The events of a response that carries no error: a token event when a
    token is present, then a sources event when sources are present, then
    the done event when the response is the last. *)
Definition events_of_response (response : StreamingQueryResponse.t)
    : list ServerSentEvent.t :=
  (match StreamingQueryResponse.token response with
   | Some tok => [token_event tok]
   | None => []
   end)
  ++ (match StreamingQueryResponse.sources response with
      | Some l => [sources_event l]
      | None => []
      end)
  ++ (if StreamingQueryResponse.is_done response then [done_event] else []).

Definition events_of_responses (responses : list StreamingQueryResponse.t)
    : list ServerSentEvent.t :=
  mjoin (events_of_response <$> responses).

(** A response as a service other than [QueryService] might build it: an
    error message next to a token. *)
Definition error_response : StreamingQueryResponse.t :=
  StreamingQueryResponse.mk (Some "partial") None false (Some "backend gone").

(** The four kinds of exception [process_upload] documents. *)
Definition is_upload_error (e : Exn) : bool :=
  match e with
  | UnsupportedFileTypeError _ _ | FileTooLargeError _ _
  | PageLimitExceededError _ _ | ProcessingError _ _ => true
  | _ => false
  end.

(** The store holds exactly the collection of the active session, if any,
    and the registry is consistent. *)
Definition store_in_step (w : World.t) : Prop :=
  SessionManager.consistent (World.session_manager w)
  ∧ (∀ c, is_Some (VectorStoreService._collections (World.vector_store w) !! c)
          ↔ SessionManager.collection_name (World.session_manager w) = Some c)
  ∧ VectorStoreService._collections (World.vector_store w) !! "" = None.

(** Chroma never refuses to delete a collection the store holds or builds. *)
Definition deletes_cleanly (store : VectorStoreService.t) : Prop :=
  (∀ c coll, VectorStoreService._collections store !! c = Some coll →
             Chroma.delete_collection coll = inr ())
  ∧ (∀ documents name coll,
       VectorStoreService.from_documents store documents name = inr coll →
       Chroma.delete_collection coll = inr ()).

(** Example uploads, continued: a document of sixty pages, an upload whose
    content cannot be read, and a world whose old collection cannot be
    deleted. *)
Definition long_document_service : DocumentService.t :=
  DocumentService.mk
    (fun path _ =>
       inr (ProcessedDocument.mk (path_name path) (extension_of path) 2
              [chunk_with_page 1; chunk_with_page 60]))
    Settings.default.


Definition stuck_world : World.t := World.mk example_session stuck_store.

(** A document processor whose loader finds two pages and whose splitter
    keeps them as they are. *)
Definition example_processor : DocumentProcessor.t :=
  DocumentProcessor.mk
    (fun _ _ content =>
       inr [Document.mk content
              {| Metadata.page := Some 0; Metadata.chunk_index := None;
                 Metadata.filename := None; Metadata.file_type := None;
                 Metadata.source := Some "loader" |};
            chunk_with_page 1])
    inr.

(** Whether the character occurs in the string. *)
Fixpoint has_char (c : ascii) (s : string) : bool :=
  match s with
  | EmptyString => false
  | String c' rest => Ascii.eqb c' c || has_char c rest
  end.

(** Settings that also allow Markdown, for which the processor has no
    loader, and a Markdown upload. *)
Definition markdown_settings : Settings.t :=
  {| Settings.max_page_limit := 50; Settings.chunk_size_tokens := 500;
     Settings.chunk_overlap_tokens := 100; Settings.top_k_chunks := 3;
     Settings.chroma_persist_dir := "./chroma_data";
     Settings.allowed_extensions := ["pdf"; "md"];
     Settings.max_file_size_mb := 20; Settings.debug := false |}.

Definition markdown_upload : UploadFile.t :=
  UploadFile.mk (Some "notes.md") (Some 1024) (inr "# Notes").

Definition wired_upload : UploadFile.t :=
  UploadFile.mk (Some "Annual Report.PDF") (Some 1024) (inr "%PDF-1.7").

(** The file names whose characters are all ASCII; [str.lower] changes
    only the letters A to Z there. *)
Fixpoint is_ascii (s : string) : bool :=
  match s with
  | EmptyString => true
  | String c rest => Nat.ltb (nat_of_ascii c) 128 && is_ascii rest
  end.

(** What [_load_document] hands to the splitter: the documents the loader
    returned, or one empty document that names the file when it returned
    none. *)
Definition documents_to_split (path : string) (loaded : list Document.t)
    : list Document.t :=
  match loaded with
  | [] =>
      [Document.mk ""
         {| Metadata.page := None; Metadata.chunk_index := None;
            Metadata.filename := Some (path_name path);
            Metadata.file_type := Some (extension_of path);
            Metadata.source := Some path |}]
  | _ :: _ => loaded
  end.

(** A returned chunk is the chunk the splitter produced, with the three
    keys of the file written over its metadata. *)
Definition enriched_from (path : string) (chunk produced : Document.t) : Prop :=
  Document.page_content chunk = Document.page_content produced
  ∧ Metadata.page (Document.metadata chunk)
    = Metadata.page (Document.metadata produced)
  ∧ Metadata.chunk_index (Document.metadata chunk)
    = Metadata.chunk_index (Document.metadata produced)
  ∧ Metadata.filename (Document.metadata chunk) = Some (path_name path)
  ∧ Metadata.file_type (Document.metadata chunk) = Some (extension_of path)
  ∧ Metadata.source (Document.metadata chunk) = Some path.

(** * Properties *)

(** ** The session registry *)

Section SessionRegistry.
Import SessionManager.

Lemma consistent_default : consistent SessionState.default.
Proof. unfold consistent; simpl. split; [discriminate | congruence]. Qed.

Lemma consistent_step (s : SessionManager.t) (op : Op) :
  consistent s -> consistent (step s op).
Proof.
  intros Hs. destruct op; simpl; try exact Hs.
  - unfold consistent; simpl. split; [discriminate | reflexivity].
  - apply consistent_default.
  - apply consistent_default.
Qed.

Lemma consistent_steps (ops : list Op) :
  forall s, consistent s -> consistent (fold_left step ops s).
Proof.
  induction ops as [|op ops IH]; intros s Hs; simpl.
  - exact Hs.
  - apply IH, consistent_step, Hs.
Qed.

(** C7. In every state of the registry reached from the initial, empty
    state by any sequence of [create_session], [clear_session] and read
    calls (and [reset_for_testing]), [is_active] is true exactly when the
    collection name is not [None]. *)
Theorem registry_invariant (ops : list Op) :
  SessionState.is_active (run ops) = true
  <-> SessionState.collection_name (run ops) <> None.
Proof. apply (consistent_steps ops new), consistent_default. Qed.
End SessionRegistry.

(** ** Page-count estimation *)

Section PageCount.
Lemma max_page_loop_pages (chunks : list Document.t) :
  forall acc, max_page_loop acc chunks = fold_left Z.max (observed_pages chunks) acc.
Proof.
  unfold max_page_loop, observed_pages.
  induction chunks as [|c chunks IH]; intros acc; simpl; [reflexivity|].
  rewrite IH. destruct (Metadata.page (Document.metadata c)); reflexivity.
Qed.

Lemma fold_max_lower (l : list Z) :
  forall acc, acc <= fold_left Z.max l acc
              ∧ ∀ p, p ∈ l → p <= fold_left Z.max l acc.
Proof.
  induction l as [|x l IH]; intros acc; simpl.
  - split; [lia|]. intros p Hp. inversion Hp.
  - destruct (IH (Z.max acc x)) as [Hacc Hl]. split; [lia|].
    intros p Hp. apply elem_of_cons in Hp as [->|Hp]; [lia | auto].
Qed.

Lemma fold_max_upper (l : list Z) (m : Z) :
  (∀ p, p ∈ l → p <= m) →
  forall acc, acc <= m → fold_left Z.max l acc <= m.
Proof.
  induction l as [|x l IH]; intros Hl acc Hacc; simpl; [exact Hacc|].
  apply IH.
  - intros p Hp. apply Hl. by right.
  - assert (x <= m) by (apply Hl; by left). lia.
Qed.

Lemma fold_max_is_max (l : list Z) (m : Z) :
  is_max_of m l → 0 <= m → fold_left Z.max l 0 = m.
Proof.
  intros [Hin Hub] Hm.
  pose proof (fold_max_upper l m Hub 0 Hm).
  destruct (fold_max_lower l 0) as [_ Hlow].
  specialize (Hlow m Hin). lia.
Qed.

Lemma pages_example_max : is_max_of 3 (observed_pages pages_1_1_2_3_3_3).
Proof.
  split; [vm_compute; set_solver|].
  intros p Hp. vm_compute in Hp.
  repeat (apply elem_of_cons in Hp as [->|Hp]; [lia|]). inversion Hp.
Qed.

(** C8. The estimator on the three inputs of the specification: pages
    1,1,2,3,3,3 give 3; twelve chunks without page metadata give 4; no
    chunk gives 1. *)
Theorem estimate_page_count_examples :
  _estimate_page_count pages_1_1_2_3_3_3 = 3
  ∧ _estimate_page_count twelve_plain_chunks = 4
  ∧ _estimate_page_count [] = 1.
Proof. repeat split; reflexivity. Qed.

(** C4, as the specification words it, fails: on the chunks with pages
    1,1,2,3,3,3 (non-empty, every chunk with page metadata, largest page
    value 3) the estimate is 3, not 3 + 1. *)
Lemma estimate_page_count_not_max_plus_one :
  pages_1_1_2_3_3_3 ≠ []
  ∧ is_max_of 3 (observed_pages pages_1_1_2_3_3_3)
  ∧ _estimate_page_count pages_1_1_2_3_3_3 ≠ 3 + 1.
Proof.
  split; [discriminate|]. split; [apply pages_example_max|].
  vm_compute; discriminate.
Qed.

(** C4, amended. When the largest page value found in the chunk metadata
    is positive, the estimate is that value itself; when no chunk carries
    page metadata, the estimate is [max(1, chunk_count // 3)]. *)
Theorem estimate_page_count_spec (chunks : list Document.t) :
  (∀ m, is_max_of m (observed_pages chunks) → 0 < m →
        _estimate_page_count chunks = m)
  ∧ (observed_pages chunks = [] →
     _estimate_page_count chunks = Z.max 1 (Z.of_nat (length chunks) / 3)).
Proof.
  split.
  - intros m Hmax Hm. destruct chunks as [|c chunks].
    { destruct Hmax as [Hin _]. inversion Hin. }
    unfold _estimate_page_count.
    rewrite max_page_loop_pages, (fold_max_is_max _ m Hmax) by lia.
    by apply Z.ltb_lt in Hm as ->.
  - intros Hnone. destruct chunks as [|c chunks]; [reflexivity|].
    unfold _estimate_page_count.
    by rewrite max_page_loop_pages, Hnone.
Qed.

Lemma estimate_page_count_spec_witness :
  _estimate_page_count pages_1_1_2_3_3_3 = 3
  ∧ _estimate_page_count twelve_plain_chunks = Z.max 1 (12 / 3).
Proof.
  split.
  - apply (proj1 (estimate_page_count_spec pages_1_1_2_3_3_3) 3); [|lia].
    apply pages_example_max.
  - apply (proj2 (estimate_page_count_spec twelve_plain_chunks)).
    reflexivity.
Defined.
End PageCount.

(** ** Calls that may raise, over lists *)

Section MapM.
Context {A B : Type} (f : A → Exn + B).

Lemma mapM_inr_cons (x : A) (l : list A) (y : B) (k : list B) :
  f x = inr y → mapM f l = inr k → mapM f (x :: l) = inr (y :: k).
Proof. intros Hx Hl. simpl. rewrite Hx. simpl. rewrite Hl. reflexivity. Qed.

Lemma mapM_inr_inv (l : list A) :
  ∀ k, mapM f l = inr k → Forall2 (fun x y => f x = inr y) l k.
Proof.
  induction l as [|x l IH]; intros k Hk; simpl in Hk.
  - injection Hk as <-. constructor.
  - destruct (f x) as [e|y] eqn:Hx; [discriminate|]. simpl in Hk.
    destruct (mapM f l) as [e|k'] eqn:Hl; [discriminate|]. simpl in Hk.
    injection Hk as <-. constructor; auto.
Qed.

Lemma mapM_inr_total (g : A → B) (l : list A) :
  Forall (fun x => f x = inr (g x)) l → mapM f l = inr (g <$> l).
Proof.
  induction 1 as [|x l Hx _ IH]; [reflexivity|].
  by apply mapM_inr_cons.
Qed.
End MapM.

(** ** Retrieval returns well-formed chunks *)

Section Retrieval.
Lemma make_chunk_valid content page index score source (c : RetrievedChunk.t) :
  RetrievedChunk.make content page index score source = inr c →
  RetrievedChunk.valid c = true.
Proof.
  unfold RetrievedChunk.make.
  destruct (RetrievedChunk.valid _) eqn:Hv; [|discriminate].
  intros [= <-]. exact Hv.
Qed.

Lemma to_chunk_valid (result : Document.t * Q) (c : RetrievedChunk.t) :
  VectorStoreService.to_chunk result = inr c → RetrievedChunk.valid c = true.
Proof. destruct result as [doc score]. apply make_chunk_valid. Qed.

Lemma query_valid settings name text top_k store (chunks : list RetrievedChunk.t) :
  VectorStoreService.query settings name text top_k store = inr chunks →
  Forall (fun c => RetrievedChunk.valid c = true) chunks.
Proof.
  unfold VectorStoreService.query.
  destruct (VectorStoreService.get_collection name store) as [e|coll];
    [discriminate|]. simpl.
  destruct (Chroma.similarity_search_with_relevance_scores coll _ _)
    as [e|results]; [discriminate|]. simpl.
  intros Hmap%mapM_inr_inv.
  induction Hmap as [|r c results chunks Hr _ IH]; constructor; [|exact IH].
  by apply (to_chunk_valid r).
Qed.

Lemma retrieve_context_inv settings question name svc (context : QueryContext.t) :
  QueryService._retrieve_context settings question name svc = inr context →
  VectorStoreService.query settings name question
    (Some (QueryService._top_k svc)) (QueryService._vector_store svc)
  = inr (QueryContext.chunks context).
Proof.
  unfold QueryService._retrieve_context.
  destruct (VectorStoreService.query _ _ _ _ _) as [e|chunks];
    [discriminate|]. simpl.
  by intros [= <-].
Qed.

Lemma to_source_valid (c : RetrievedChunk.t) :
  RetrievedChunk.valid c = true → QueryService.to_source c = inr (source_of c).
Proof.
  intros Hv. unfold QueryService.to_source, Source.make, Source.valid. simpl.
  unfold RetrievedChunk.valid in Hv. by rewrite Hv.
Qed.

Lemma chunks_to_sources_valid (chunks : list RetrievedChunk.t) :
  Forall (fun c => RetrievedChunk.valid c = true) chunks →
  QueryService._chunks_to_sources chunks = inr (source_of <$> chunks).
Proof.
  intros Hv. apply mapM_inr_total.
  eapply Forall_impl; [exact Hv|]. apply to_source_valid.
Qed.
End Retrieval.

(** ** The query stream *)

Section QueryStream.
Import StreamingQueryResponse.

Variable settings : Settings.t.

(** The route's loop turns each token response into one token event. *)
Lemma event_loop_tokens (tokens : list string)
    (rest : list StreamingQueryResponse.t) (ending : Ending) :
  QueryRoute.event_loop ((of_token <$> tokens) ++ rest) ending
  = Stream.seq (Stream.mk (token_event <$> tokens) Finished)
      (QueryRoute.event_loop rest ending).
Proof.
  induction tokens as [|tok tokens IH]; csimpl.
  - by destruct (QueryRoute.event_loop rest ending).
  - rewrite IH. reflexivity.
Qed.

Lemma truthy_str_Some (c : string) : c ≠ "" → truthy_str (Some c) = true.
Proof. intros Hc. simpl. by apply String.eqb_neq in Hc as ->. Qed.

(** With an active session the body of [query_stream] goes on to
    retrieval. *)
Lemma query_stream_body_active question svc (c : string) :
  SessionManager.is_active (QueryService._session_manager svc) = true →
  SessionManager.collection_name (QueryService._session_manager svc) = Some c →
  c ≠ "" →
  QueryService.query_stream_body settings question svc
  = match QueryService._retrieve_context settings question c svc with
    | inl e =>
        Stream.raise
          (QueryError "Failed to retrieve relevant context from vector store"
             (Some e))
    | inr context =>
        Stream.seq
          (QueryService.stream_tokens
             (QueryService._build_prompt question context) svc)
          match QueryService._chunks_to_sources (QueryContext.chunks context) with
          | inl e => Stream.raise e
          | inr sources =>
              Stream.mk [of_sources sources; done] Finished
          end
    end.
Proof.
  intros Hactive Hname Hc. unfold QueryService.query_stream_body.
  rewrite Hactive, Hname, (truthy_str_Some c Hc). simpl.
  destruct (QueryService._retrieve_context settings question c svc);
    reflexivity.
Qed.

(** Without an active session [query_stream] raises before it yields. *)
Lemma query_stream_inactive (question : string) (svc : QueryService.t) :
  SessionManager.is_active (QueryService._session_manager svc) = false
  ∨ SessionManager.collection_name (QueryService._session_manager svc) = None →
  QueryService.query_stream settings question svc
  = Stream.mk [] (Raised NoActiveSessionError).
Proof.
  intros Hnone.
  unfold QueryService.query_stream, QueryService.query_stream_body.
  destruct Hnone as [-> | Hname]; [reflexivity|].
  rewrite Hname.
  by destruct (SessionManager.is_active (QueryService._session_manager svc)).
Qed.

(** C2. A query made while no session is active (the registry is inactive
    or holds no collection name) yields nothing from [query_stream], which
    raises [NoActiveSessionError]; the stream of the route is exactly one
    event, named "error" and carrying the no-session message, and it ends
    there: one error event, no token event, no sources event and no done
    event. *)
Theorem query_without_session (request : QueryRequest.t) (svc : QueryService.t) :
  SessionManager.is_active (QueryService._session_manager svc) = false
  ∨ SessionManager.collection_name (QueryService._session_manager svc) = None →
  let events :=
    Stream.yielded (QueryRoute.event_generator settings request svc) in
  QueryService.query_stream settings (QueryRequest.query request) svc
  = Stream.mk [] (Raised NoActiveSessionError)
  ∧ QueryRoute.event_generator settings request svc
    = Stream.mk
        [ServerSentEvent.mk "error"
           (ErrorData "No document loaded. Please upload a document first.")]
        Finished
  ∧ count_events "error" events = 1%nat
  ∧ count_events "token" events = 0%nat
  ∧ count_events "sources" events = 0%nat
  ∧ count_events "done" events = 0%nat.
Proof.
  intros Hnone events.
  pose proof (query_stream_inactive (QueryRequest.query request) svc Hnone)
    as Hq.
  assert (QueryRoute.event_generator settings request svc
          = Stream.mk
              [ServerSentEvent.mk "error"
                 (ErrorData
                    "No document loaded. Please upload a document first.")]
              Finished) as Hev.
  { unfold QueryRoute.event_generator. rewrite Hq. reflexivity. }
  split; [exact Hq|]. split; [exact Hev|].
  subst events. rewrite Hev. by repeat split.
Qed.

(** C1. When the session is active and retrieval and generation succeed,
    [query_stream] yields the generated tokens in order, then one sources
    response, then one done response, and ends there; the route emits the
    matching token events, one sources event and one done event. The
    sources are those of the chunks retrieval returned. *)
Theorem query_stream_success (request : QueryRequest.t) (svc : QueryService.t)
    (c : string) (context : QueryContext.t) (tokens : list string) :
  SessionManager.is_active (QueryService._session_manager svc) = true →
  SessionManager.collection_name (QueryService._session_manager svc) = Some c →
  c ≠ "" →
  QueryService._retrieve_context settings (QueryRequest.query request) c svc
  = inr context →
  LLMService.generate_stream
    (QueryService._build_prompt (QueryRequest.query request) context)
    (Some RAG_SYSTEM_PROMPT) (QueryService._llm svc)
  = Stream.mk tokens Finished →
  let sources := source_of <$> QueryContext.chunks context in
  QueryService.query_stream settings (QueryRequest.query request) svc
  = Stream.mk ((of_token <$> tokens) ++ [of_sources sources; done]) Finished
  ∧ QueryRoute.event_generator settings request svc
    = Stream.mk
        ((token_event <$> tokens) ++ [sources_event sources; done_event])
        Finished.
Proof.
  intros Hactive Hname Hc Hctx Hgen sources.
  assert (QueryService.query_stream settings (QueryRequest.query request) svc
          = Stream.mk ((of_token <$> tokens) ++ [of_sources sources; done])
              Finished) as Hq.
  { unfold QueryService.query_stream.
    rewrite (query_stream_body_active _ svc c Hactive Hname Hc), Hctx.
    unfold QueryService.stream_tokens. rewrite Hgen.
    rewrite chunks_to_sources_valid.
    - reflexivity.
    - eapply query_valid, retrieve_context_inv, Hctx. }
  split; [exact Hq|].
  unfold QueryRoute.event_generator. rewrite Hq. simpl.
  rewrite event_loop_tokens. reflexivity.
Qed.

Lemma generate_stream_raised prompt system_prompt llm (tokens : list string)
    (e : Exn) :
  LLMService.generate_stream prompt system_prompt llm
  = Stream.mk tokens (Raised e) →
  ∃ cause,
    e = LLMError "Failed to generate streaming response from LLM" (Some cause).
Proof.
  unfold LLMService.generate_stream, Stream.except. simpl.
  destruct (Stream.ending (LLMService.astream llm _)) as [|cause];
    intros [= _ <-]. by exists cause.
Qed.

Lemma count_events_app name (l1 l2 : list ServerSentEvent.t) :
  count_events name (l1 ++ l2)
  = (count_events name l1 + count_events name l2)%nat.
Proof. unfold count_events. by rewrite filter_app, length_app. Qed.

Lemma count_events_singleton name (ev : ServerSentEvent.t) :
  count_events name [ev]
  = if decide (ServerSentEvent.event ev = name) then 1%nat else 0%nat.
Proof.
  unfold count_events. rewrite filter_cons, filter_nil.
  by case_decide.
Qed.

Lemma count_events_tokens name (tokens : list string) :
  count_events name (token_event <$> tokens)
  = if decide ("token" = name) then length tokens else 0%nat.
Proof.
  unfold count_events.
  induction tokens as [|tok tokens IH]; csimpl; [by case_decide|].
  rewrite filter_cons. simpl.
  destruct (decide ("token" = name)); simpl; by rewrite IH.
Qed.

(** C5. When generation fails after the tokens [tokens] were emitted,
    [query_stream] has yielded exactly those token responses and raises a
    [QueryError]; the stream of the route is the same tokens, each as one
    token event, followed by one error event and nothing else: no sources
    event, no done event. *)
Theorem generation_failure_after_tokens (request : QueryRequest.t)
    (svc : QueryService.t) (c : string) (context : QueryContext.t)
    (tokens : list string) (e : Exn) :
  SessionManager.is_active (QueryService._session_manager svc) = true →
  SessionManager.collection_name (QueryService._session_manager svc) = Some c →
  c ≠ "" →
  QueryService._retrieve_context settings (QueryRequest.query request) c svc
  = inr context →
  LLMService.generate_stream
    (QueryService._build_prompt (QueryRequest.query request) context)
    (Some RAG_SYSTEM_PROMPT) (QueryService._llm svc)
  = Stream.mk tokens (Raised e) →
  let events :=
    Stream.yielded (QueryRoute.event_generator settings request svc) in
  QueryService.query_stream settings (QueryRequest.query request) svc
  = Stream.mk (of_token <$> tokens)
      (Raised (QueryError "Failed to generate response from LLM" (Some e)))
  ∧ QueryRoute.event_generator settings request svc
    = Stream.mk
        ((token_event <$> tokens)
           ++ [QueryRoute.error_event "Failed to generate response from LLM"])
        Finished
  ∧ count_events "token" events = length tokens
  ∧ count_events "sources" events = 0%nat
  ∧ count_events "done" events = 0%nat
  ∧ count_events "error" events = 1%nat.
Proof.
  intros Hactive Hname Hc Hctx Hgen events.
  destruct (generate_stream_raised _ _ _ _ _ Hgen) as [cause ->].
  assert (QueryService.query_stream settings (QueryRequest.query request) svc
          = Stream.mk (of_token <$> tokens)
              (Raised (QueryError "Failed to generate response from LLM"
                         (Some (LLMError
                            "Failed to generate streaming response from LLM"
                            (Some cause)))))) as Hq.
  { unfold QueryService.query_stream.
    rewrite (query_stream_body_active _ svc c Hactive Hname Hc), Hctx.
    unfold QueryService.stream_tokens. rewrite Hgen.
    unfold Stream.seq, Stream.except. simpl. by rewrite !app_nil_r. }
  assert (QueryRoute.event_generator settings request svc
          = Stream.mk
              ((token_event <$> tokens)
                 ++ [QueryRoute.error_event
                       "Failed to generate response from LLM"])
              Finished) as Hev.
  { unfold QueryRoute.event_generator. rewrite Hq. simpl.
    rewrite <- (app_nil_r (of_token <$> tokens)), event_loop_tokens.
    unfold Stream.seq, Stream.except. simpl. by rewrite ?app_nil_r. }
  split; [exact Hq|]. split; [exact Hev|].
  subst events. rewrite Hev. simpl.
  rewrite !count_events_app, !count_events_tokens, !count_events_singleton.
  simpl. repeat split; repeat case_decide; try discriminate; lia.
Qed.

(** The route reads only the question of the request: whatever [top_k] the
    request carries, the stream is the one of the request without it. *)
Lemma event_generator_drops_top_k (question : string) (top_k : option Z)
    (svc : QueryService.t) :
  QueryRoute.event_generator settings (QueryRequest.mk question top_k) svc
  = QueryRoute.event_generator settings (QueryRequest.mk question None) svc.
Proof. reflexivity. Qed.
End QueryStream.

Section QueryStreamExamples.
Import StreamingQueryResponse.

Lemma query_without_session_witness :
  let request := QueryRequest.mk "What is X?" None in
  let events :=
    Stream.yielded
      (QueryRoute.event_generator Settings.default request idle_service) in
  QueryService.query_stream Settings.default "What is X?" idle_service
  = Stream.mk [] (Raised NoActiveSessionError)
  ∧ QueryRoute.event_generator Settings.default request idle_service
    = Stream.mk
        [ServerSentEvent.mk "error"
           (ErrorData "No document loaded. Please upload a document first.")]
        Finished
  ∧ count_events "error" events = 1%nat
  ∧ count_events "token" events = 0%nat
  ∧ count_events "sources" events = 0%nat
  ∧ count_events "done" events = 0%nat.
Proof.
  apply (query_without_session Settings.default
           (QueryRequest.mk "What is X?" None) idle_service).
  left. reflexivity.
Defined.

Lemma query_stream_success_witness :
  let sources := source_of <$> QueryContext.chunks example_context in
  QueryService.query_stream Settings.default "What is X?" example_service
  = Stream.mk
      ((of_token <$> ["The "; "answer "; "is "; "X."])
         ++ [of_sources sources; done])
      Finished
  ∧ QueryRoute.event_generator Settings.default
      (QueryRequest.mk "What is X?" None) example_service
    = Stream.mk
        ((token_event <$> ["The "; "answer "; "is "; "X."])
           ++ [sources_event sources; done_event])
        Finished.
Proof.
  apply (query_stream_success Settings.default
           (QueryRequest.mk "What is X?" None) example_service
           "session_0123456789ab" example_context
           ["The "; "answer "; "is "; "X."]).
  - reflexivity.
  - reflexivity.
  - discriminate.
  - vm_compute. reflexivity.
  - vm_compute. reflexivity.
Defined.

Lemma generation_failure_after_tokens_witness :
  let request := QueryRequest.mk "What is X?" None in
  let events :=
    Stream.yielded
      (QueryRoute.event_generator Settings.default request failing_service) in
  QueryService.query_stream Settings.default "What is X?" failing_service
  = Stream.mk (of_token <$> ["The "; "answer "])
      (Raised
         (QueryError "Failed to generate response from LLM"
            (Some
               (LLMError "Failed to generate streaming response from LLM"
                  (Some (OtherException "connection reset"))))))
  ∧ QueryRoute.event_generator Settings.default request failing_service
    = Stream.mk
        ((token_event <$> ["The "; "answer "])
           ++ [QueryRoute.error_event "Failed to generate response from LLM"])
        Finished
  ∧ count_events "token" events = 2%nat
  ∧ count_events "sources" events = 0%nat
  ∧ count_events "done" events = 0%nat
  ∧ count_events "error" events = 1%nat.
Proof.
  apply (generation_failure_after_tokens Settings.default
           (QueryRequest.mk "What is X?" None) failing_service
           "session_0123456789ab" example_context ["The "; "answer "]
           (LLMError "Failed to generate streaming response from LLM"
              (Some (OtherException "connection reset")))).
  - reflexivity.
  - reflexivity.
  - discriminate.
  - vm_compute. reflexivity.
  - vm_compute. reflexivity.
Defined.

(** C3 fails on the code. A valid request asks for five chunks; the
    collection holds ten passages and returns five when asked for five;
    the service was built with the default [top_k] of 3. The sources event
    of the stream carries three sources: the store was asked for three. *)
Theorem top_k_override_ignored :
  let request := QueryRequest.mk "What is X?" (Some 5) in
  let events :=
    Stream.yielded
      (QueryRoute.event_generator Settings.default request example_service) in
  QueryRequest.valid request = true
  ∧ Chroma.similarity_search_with_relevance_scores example_collection
      "What is X?" 5
    = inr (example_passage <$> seqZ 0 5)
  ∧ QueryService._top_k example_service = 3
  ∧ ∃ sources, sources_event sources ∈ events ∧ length sources = 3%nat.
Proof.
  repeat split; try reflexivity.
  exists (source_of <$> QueryContext.chunks example_context).
  split; [|reflexivity].
  vm_compute. do 4 right. left.
Qed.
End QueryStreamExamples.

(** ** The upload pipeline *)

Ltac upload_unfold :=
  unfold mbind, upload_bind, mret, upload_ret, Upload.except, Upload.lift,
    Upload.raise, Upload.session, Upload.read_session, Upload.store in *.

Section UploadPipeline.
Import DocumentService.

(** [_cleanup_old_session] never raises and leaves the registry inactive. *)
Lemma cleanup_old_session_inactive (w : World.t) :
  ∃ w1, _cleanup_old_session w = (inr (), w1)
        ∧ SessionManager.is_active (World.session_manager w1) = false.
Proof.
  unfold _cleanup_old_session. upload_unfold. simpl.
  destruct (SessionManager.is_active (World.session_manager w)) eqn:Hact.
  - destruct (truthy_str _).
    + destruct (VectorStoreService.delete_collection _ _) as [[e|b] store'];
        simpl; eauto.
    + simpl. eauto.
  - eauto.
Qed.

Lemma create_collection_failure_unchanged name documents store (e : Exn) :
  (VectorStoreService.create_collection name documents store).1 = inl e →
  VectorStoreService.create_collection name documents store = (inl e, store).
Proof.
  unfold VectorStoreService.create_collection.
  destruct (VectorStoreService._collections store !! name).
  - by intros [= <-].
  - destruct (VectorStoreService.from_documents store documents name);
      [by intros [= <-] | discriminate].
Qed.

(** From an inactive registry, steps 4 to 8 either succeed or leave the
    registry inactive. *)
Lemma process_saved_failure_inactive file env path content ds
    (w1 w' : World.t) (e : Exn) :
  SessionManager.is_active (World.session_manager w1) = false →
  process_saved file env path content ds w1 = (inl e, w') →
  SessionManager.is_active (World.session_manager w') = false.
Proof.
  intros Hidle. unfold process_saved. upload_unfold.
  destruct (_document_processor ds path content) as [e0|doc]; simpl.
  { by intros [= _ <-]. }
  destruct (Z.ltb _ _); simpl.
  { by intros [= _ <-]. }
  destruct (VectorStoreService.create_collection _ _ _) as [[e1|n] store'];
    simpl.
  - by intros [= _ <-].
  - discriminate.
Qed.

(** A successful upload leaves the registry active on the uploaded document,
    with the estimated page count (within the limit), the chunk count of the
    processed document and a collection the store now holds. *)
Lemma process_saved_success file env path content ds (w1 w' : World.t)
    (response : DocumentUploadResponse.t) :
  process_saved file env path content ds w1 = (inr response, w') →
  ∃ doc,
    _document_processor ds path content = inr doc
    ∧ _estimate_page_count (ProcessedDocument.chunks doc)
      <= Settings.max_page_limit (_settings ds)
    ∧ World.session_manager w'
      = (SessionManager.create_session (Env.uuid_hex env) (Env.now env)
           (DocumentUploadResponse.filename response)
           (_estimate_page_count (ProcessedDocument.chunks doc))
           (ProcessedDocument.total_chunks doc) SessionManager.new).2
    ∧ DocumentUploadResponse.total_chunks response
      = ProcessedDocument.total_chunks doc
    ∧ references_existing_collection w'.
Proof.
  unfold process_saved. upload_unfold.
  destruct (_document_processor ds path content) as [e0|doc]; simpl;
    [discriminate|].
  destruct (Z.ltb _ _) eqn:Hlimit; simpl; [discriminate|].
  apply Z.ltb_ge in Hlimit.
  unfold VectorStoreService.create_collection.
  destruct (VectorStoreService._collections _ !! _); simpl; [discriminate|].
  destruct (VectorStoreService.from_documents _ _ _) as [e1|vectorstore];
    simpl; [discriminate|].
  intros [= <- <-]. exists doc. simpl. repeat split; try done.
  intros c [= <-]. simpl. rewrite lookup_insert_eq. eauto.
Qed.

(** C6. When the upload reaches the creation of the Chroma collection and
    that creation fails with [e], [process_upload] raises a
    [ProcessingError] that wraps [e], and the registry is left inactive
    with no collection name; the store is as the clean-up of the old
    session left it. *)
Theorem collection_creation_failure_rolls_back (file : UploadFile.t)
    (env : Env.t) (ds : DocumentService.t) (w : World.t)
    (path content : string) (doc : ProcessedDocument.t) (e : Exn) :
  _validate_file file ds = inr () →
  _save_temp_file file env = inr (path, content) →
  _document_processor ds path content = inr doc →
  _estimate_page_count (ProcessedDocument.chunks doc)
  <= Settings.max_page_limit (_settings ds) →
  let w1 := (_cleanup_old_session w).2 in
  (VectorStoreService.create_collection
     ("session_" +:+ String.substring 0 12 (Env.uuid_hex env))
     (ProcessedDocument.chunks doc) (World.vector_store w1)).1 = inl e →
  ∃ w',
    process_upload file env ds w
    = (inl (ProcessingError "Failed to create vector store collection"
              (Some e)), w')
    ∧ SessionManager.is_active (World.session_manager w') = false
    ∧ SessionManager.collection_name (World.session_manager w') = None
    ∧ World.vector_store w' = World.vector_store w1.
Proof.
  intros Hvalid Hsaved Hdoc Hpages w1 Hcreate.
  apply create_collection_failure_unchanged in Hcreate.
  destruct (cleanup_old_session_inactive w) as (w1' & Hclean & _).
  assert (w1 = w1') as Hw1 by (subst w1; by rewrite Hclean).
  exists (World.mk SessionState.default (World.vector_store w1)).
  split; [|done].
  unfold process_upload, process_upload_body, process_saved. upload_unfold.
  rewrite Hvalid, Hsaved, Hclean. simpl. rewrite Hdoc. simpl.
  apply Z.ltb_ge in Hpages. rewrite Hpages. simpl.
  rewrite <- Hw1, Hcreate. reflexivity.
Qed.

(** C9. When [process_upload] fails after its validation and temp-file
    steps, that is once the previous session has been cleaned up, the
    registry ends inactive, whatever it held before: a query on it raises
    [NoActiveSessionError]. *)
Theorem failed_upload_leaves_registry_inactive (file : UploadFile.t)
    (env : Env.t) (ds : DocumentService.t) (w w' : World.t)
    (saved : string * string) (e : Exn) :
  _validate_file file ds = inr () →
  _save_temp_file file env = inr saved →
  process_upload file env ds w = (inl e, w') →
  SessionManager.is_active (World.session_manager w') = false
  ∧ ∀ settings question svc,
      QueryService._session_manager svc = World.session_manager w' →
      QueryService.query_stream settings question svc
      = Stream.mk [] (Raised NoActiveSessionError).
Proof.
  intros Hvalid Hsaved Hfail.
  assert (SessionManager.is_active (World.session_manager w') = false)
    as Hidle.
  { destruct (cleanup_old_session_inactive w) as (w1 & Hclean & Hidle).
    revert Hfail.
    unfold process_upload, process_upload_body. upload_unfold.
    rewrite Hvalid, Hsaved, Hclean. simpl.
    destruct (process_saved file env saved.1 saved.2 ds w1)
      as [[e'|response] w''] eqn:Hrest; [|discriminate].
    intros [= _ <-]. eapply process_saved_failure_inactive; eauto. }
  split; [exact Hidle|].
  intros settings question svc Hsvc.
  apply query_stream_inactive. left. by rewrite Hsvc.
Qed.

Lemma truthy_str_false (s : option string) :
  truthy_str s = false ↔ s = None ∨ s = Some "".
Proof.
  destruct s as [s|]; simpl.
  - rewrite negb_false_iff, String.eqb_eq. split.
    + intros ->. by right.
    + by intros [|[= ->]].
  - split; [by left | done].
Qed.

Lemma truthy_int_false (n : option Z) :
  truthy_int n = false ↔ n = None ∨ n = Some 0.
Proof.
  destruct n as [n|]; simpl.
  - rewrite negb_false_iff, Z.eqb_eq. split.
    + intros ->. by right.
    + by intros [|[= ->]].
  - split; [by left | done].
Qed.

(** With a filename the extension is checked against the allow-list, and
    with a size the limit applies: [size / 2^20 > max] exactly when
    [size > max * 2^20]. *)
Lemma check_extension_performed (file : UploadFile.t) (ds : DocumentService.t)
    (name : string) :
  UploadFile.filename file = Some name → name ≠ "" →
  check_extension file ds = inr ()
  ↔ extension_of name ∈ Settings.allowed_extensions (_settings ds).
Proof.
  intros Hname Hne. unfold check_extension.
  rewrite Hname. simpl. apply String.eqb_neq in Hne as ->. simpl.
  case_bool_decide; split; try done.
Qed.

Lemma check_size_performed (file : UploadFile.t) (ds : DocumentService.t)
    (n : Z) :
  UploadFile.size file = Some n → n ≠ 0 →
  check_size file ds = inr ()
  ↔ n <= Settings.max_file_size_mb (_settings ds) * (1024 * 1024).
Proof.
  intros Hsize Hne. unfold check_size.
  rewrite Hsize. simpl. apply Z.eqb_neq in Hne as ->. simpl.
  destruct (Qle_bool _ _) eqn:Hle; simpl.
  - apply Qle_bool_iff in Hle. unfold Qle in Hle. simpl in Hle.
    split; [intros _; lia | done].
  - split; [done|]. intros Hn.
    assert (Qle_bool (Qdiv (inject_Z n) (inject_Z (1024 * 1024)))
              (inject_Z (Settings.max_file_size_mb (_settings ds))) = true)
      as Habs; [|congruence].
    apply Qle_bool_iff. unfold Qle. simpl. lia.
Qed.

(** C10. Validation checks the extension only when the upload has a
    (non-empty) filename and the size only when its reported size is
    neither missing nor zero: without a filename validation is the size
    check alone, without a size it is the extension check alone, and with
    neither it passes. An upload that passes validation goes on to the
    temp-file save and, once the old session is cleaned up, to document
    processing. *)
Theorem unchecked_upload_proceeds (file : UploadFile.t)
    (ds : DocumentService.t) :
  (UploadFile.filename file = None ∨ UploadFile.filename file = Some "" →
   _validate_file file ds = check_size file ds)
  ∧ (UploadFile.size file = None ∨ UploadFile.size file = Some 0 →
     _validate_file file ds = check_extension file ds)
  ∧ ((UploadFile.filename file = None ∨ UploadFile.filename file = Some "") →
     (UploadFile.size file = None ∨ UploadFile.size file = Some 0) →
     _validate_file file ds = inr ())
  ∧ (_validate_file file ds = inr () →
     ∀ env w,
       process_upload file env ds w
       = match _save_temp_file file env with
         | inl e => (inl (expected_or_wrapped e), w)
         | inr (path, content) =>
             Upload.except
               (_ ← _cleanup_old_session;
                process_saved file env path content ds)
               (fun e => Upload.raise (expected_or_wrapped e)) w
         end).
Proof.
  assert (UploadFile.filename file = None ∨ UploadFile.filename file = Some "" →
          check_extension file ds = inr ()) as Hext.
  { intros Hname%truthy_str_false. unfold check_extension. by rewrite Hname. }
  assert (UploadFile.size file = None ∨ UploadFile.size file = Some 0 →
          check_size file ds = inr ()) as Hsize.
  { intros Hn%truthy_int_false. unfold check_size. by rewrite Hn. }
  repeat split.
  - intros Hname. unfold _validate_file. by rewrite (Hext Hname).
  - intros Hn. unfold _validate_file. rewrite (Hsize Hn).
    by destruct (check_extension file ds) as [e|[]].
  - intros Hname Hn. unfold _validate_file.
    by rewrite (Hext Hname), (Hsize Hn).
  - intros Hvalid env w.
    unfold process_upload, process_upload_body. upload_unfold.
    rewrite Hvalid.
    by destruct (_save_temp_file file env) as [e|[path content]].
Qed.

Lemma cleanup_old_session_references (w : World.t) :
  references_existing_collection w →
  references_existing_collection (_cleanup_old_session w).2.
Proof.
  intros Hw. unfold _cleanup_old_session. upload_unfold. simpl.
  destruct (SessionManager.is_active (World.session_manager w));
    [|exact Hw].
  destruct (truthy_str _).
  - destruct (VectorStoreService.delete_collection _ _) as [[e|b] store'];
      simpl; intros c; discriminate.
  - simpl. intros c. discriminate.
Qed.

Lemma process_saved_references file env path content ds (w1 : World.t) :
  references_existing_collection w1 →
  references_existing_collection
    (process_saved file env path content ds w1).2.
Proof.
  intros Hw1. unfold process_saved. upload_unfold.
  destruct (_document_processor ds path content) as [e0|doc]; simpl;
    [exact Hw1|].
  destruct (Z.ltb _ _); simpl; [exact Hw1|].
  unfold VectorStoreService.create_collection.
  destruct (VectorStoreService._collections _ !! _) eqn:Hfree; simpl.
  { intros c. discriminate. }
  destruct (VectorStoreService.from_documents _ _ _) as [e1|vectorstore];
    simpl.
  { intros c. discriminate. }
  intros c [= <-]. simpl. rewrite lookup_insert_eq. eauto.
Qed.

(** Whatever an upload does, it leaves the registry naming only
    collections that exist, if it found it so. *)
Lemma process_upload_references file env ds (w : World.t) :
  references_existing_collection w →
  references_existing_collection (process_upload file env ds w).2.
Proof.
  intros Hw. unfold process_upload, process_upload_body. upload_unfold.
  destruct (_validate_file file ds) as [e|[]]; [exact Hw|].
  destruct (_save_temp_file file env) as [e|saved]; [exact Hw|].
  destruct (cleanup_old_session_inactive w) as (w1 & Hclean & _).
  pose proof (cleanup_old_session_references w Hw) as Hw1.
  rewrite Hclean in Hw1 |- *. simpl in Hw1.
  pose proof (process_saved_references file env saved.1 saved.2 ds w1 Hw1)
    as Hw'.
  by destruct (process_saved file env saved.1 saved.2 ds w1) as [[e|r] w'].
Qed.
End UploadPipeline.

Section UploadExamples.
Import DocumentService.

Lemma collection_creation_failure_rolls_back_witness :
  ∃ w',
    process_upload example_upload example_env example_document_service
      broken_world
    = (inl (ProcessingError "Failed to create vector store collection"
              (Some (OtherException "embedding backend down"))), w')
    ∧ SessionManager.is_active (World.session_manager w') = false
    ∧ SessionManager.collection_name (World.session_manager w') = None
    ∧ World.vector_store w'
      = World.vector_store (_cleanup_old_session broken_world).2.
Proof.
  apply (collection_creation_failure_rolls_back example_upload example_env
           example_document_service broken_world
           "/tmp/tmpab12cd.pdf" "%PDF-1.7"
           (ProcessedDocument.mk "tmpab12cd.pdf" "pdf" 6 pages_1_1_2_3_3_3)).
  - vm_compute. reflexivity.
  - vm_compute. reflexivity.
  - vm_compute. reflexivity.
  - vm_compute. discriminate.
  - vm_compute. reflexivity.
Defined.

Lemma failed_upload_leaves_registry_inactive_witness :
  let w' :=
    (process_upload example_upload example_env failing_document_service
       example_world).2 in
  SessionManager.is_active (World.session_manager w') = false
  ∧ ∀ settings question svc,
      QueryService._session_manager svc = World.session_manager w' →
      QueryService.query_stream settings question svc
      = Stream.mk [] (Raised NoActiveSessionError).
Proof.
  apply (failed_upload_leaves_registry_inactive example_upload example_env
           failing_document_service example_world _
           ("/tmp/tmpab12cd.pdf", "%PDF-1.7")
           (ProcessingError "Failed to process document: corrupt file"
              (Some (DocumentProcessingError "corrupt file")))).
  - vm_compute. reflexivity.
  - vm_compute. reflexivity.
  - vm_compute. reflexivity.
Defined.

Lemma unchecked_upload_proceeds_witness :
  _validate_file nameless_upload example_document_service = inr ()
  ∧ (process_upload nameless_upload example_env example_document_service
       example_world).1
    = inr (DocumentUploadResponse.mk "tmpab12cd.tmp" "tmp" 6
             "Document uploaded and processed successfully").
Proof.
  pose proof (unchecked_upload_proceeds nameless_upload
                example_document_service) as (_ & _ & Hpass & Hproceed).
  pose proof (Hpass (or_introl eq_refl) (or_intror eq_refl)) as Hvalid.
  split; [exact Hvalid|].
  rewrite (Hproceed Hvalid example_env example_world).
  vm_compute. reflexivity.
Defined.

Example validation_examples :
  _validate_file example_upload example_document_service = inr ()
  ∧ _validate_file (UploadFile.mk (Some "setup.EXE") (Some 1024) (inr ""))
      example_document_service
    = inl (UnsupportedFileTypeError "exe" ["pdf"; "txt"; "docx"])
  ∧ _validate_file
      (UploadFile.mk (Some "big.pdf") (Some (21 * 1024 * 1024)) (inr ""))
      example_document_service
    = inl (FileTooLargeError (Qdiv (inject_Z (21 * 1024 * 1024))
                                (inject_Z (1024 * 1024))) 20)
  ∧ _validate_file (UploadFile.mk (Some "") None (inr ""))
      example_document_service = inr ().
Proof. repeat split; reflexivity. Qed.

(** With the processor that [get_document_service] wires, an upload
    without a filename is saved under the suffix [.tmp], which no loader
    takes: it is rejected only after the session of report.pdf is gone. *)
Example nameless_upload_ends_the_session :
  let ds :=
    get_document_service (DocumentProcessor.mk (fun _ _ _ => inr []) inr)
      Settings.default in
  let result := process_upload nameless_upload example_env ds example_world in
  SessionManager.is_active (World.session_manager example_world) = true
  ∧ result.1 = inl (UnsupportedFileTypeError "tmp" ["pdf"; "txt"; "docx"])
  ∧ World.session_manager result.2 = SessionState.default.
Proof. vm_compute. repeat split; reflexivity. Qed.
End UploadExamples.

(** * Further properties of the code *)

(** ** The session registry and the health route *)

Section RegistryBehaviour.
Import SessionManager.

Lemma idle_is_default_steps (ops : list Op) :
  ∀ s, idle_is_default s → idle_is_default (fold_left step ops s).
Proof.
  induction ops as [|op ops IH]; intros s Hs; simpl; [exact Hs|].
  apply IH. destruct op; simpl; try exact Hs; by intros ?.
Qed.

Lemma idle_is_default_run (ops : list Op) : idle_is_default (run ops).
Proof. apply idle_is_default_steps. by intros ?. Qed.

(** X1. [clear_session] returns [None] exactly when no session was active
    in the state it is called on, for every state the registry can reach. *)
Theorem clear_session_none_iff_inactive (ops : list Op) :
  (clear_session (run ops)).1 = None ↔ is_active (run ops) = false.
Proof.
  pose proof (consistent_steps ops new consistent_default) as Hinv.
  fold (run ops) in Hinv. unfold consistent in Hinv. simpl.
  unfold is_active.
  destruct Hinv as [Hact Hname].
  destruct (SessionState.is_active (run ops)),
    (SessionState.collection_name (run ops)) as [name|]; split; try done.
  - by specialize (Hact eq_refl).
  - intros _. assert (false = true) by (by apply Hname). done.
Qed.

(** The name of the collection is ["session_"] followed by the first
    twelve characters of the uuid: two calls return the same name exactly
    when their uuids agree on those characters, whatever the documents and
    the states they are called on. *)
Theorem create_session_name_collision (u1 u2 : string) (n1 n2 : Z)
    (f1 f2 : string) (p1 p2 c1 c2 : Z) (s1 s2 : SessionManager.t) :
  (create_session u1 n1 f1 p1 c1 s1).1 = (create_session u2 n2 f2 p2 c2 s2).1
  ↔ String.substring 0 12 u1 = String.substring 0 12 u2.
Proof.
  simpl. split; [|by intros ->].
  intros H. by injection H.
Qed.

(** X2. Health check on any reachable registry state: [document_loaded]
    equals [session_active]; when no session is active the response carries
    no filename, page count or chunk count, and when one is active it
    carries all three. *)
Theorem health_check_reachable (ops : list Op) :
  let r := HealthRoute.health_check (run ops) in
  HealthResponse.document_loaded r = HealthResponse.session_active r
  ∧ (HealthResponse.session_active r = false →
     HealthResponse.filename r = None
     ∧ HealthResponse.page_count r = None
     ∧ HealthResponse.chunk_count r = None)
  ∧ (HealthResponse.session_active r = true →
     is_Some (HealthResponse.filename r)
     ∧ is_Some (HealthResponse.page_count r)
     ∧ is_Some (HealthResponse.chunk_count r)).
Proof.
  simpl. split; [reflexivity|]. split.
  - intros Hidle. unfold HealthRoute.health_check, get_state. simpl.
    by rewrite (idle_is_default_run ops Hidle).
  - unfold HealthRoute.health_check, get_state. simpl.
    assert (∀ s, (SessionState.is_active s = true → is_Some (SessionState.filename s)) →
                 SessionState.is_active (fold_left step ops s) = true →
                 is_Some (SessionState.filename (fold_left step ops s))) as Hname.
    { induction ops as [|op ops IH]; intros s Hs; simpl; [exact Hs|].
      apply IH. destruct op; simpl; try exact Hs; try discriminate. eauto. }
    intros Hact. rewrite Hact. repeat split; eauto.
    apply Hname; [discriminate | exact Hact].
Qed.

(** [create_session] replaces the registry whole: after any history,
    the state after a [create_session] is the one the call describes, with
    nothing left of earlier sessions, and a [clear_session] right after it
    returns the name the call returned. *)
Theorem create_session_replaces (ops : list Op) (u : string) (n : Z)
    (f : string) (p c : Z) :
  let name := (create_session u n f p c (run ops)).1 in
  get_state (run (ops ++ [CreateSession u n f p c]))
  = SessionState.mk true (Some f) p c (Some n) (Some name)
  ∧ (clear_session (run (ops ++ [CreateSession u n f p c]))).1 = Some name
  ∧ run (ops ++ [CreateSession u n f p c; ClearSession]) = SessionState.default.
Proof.
  unfold run. rewrite !fold_left_app. simpl. by repeat split.
Qed.
End RegistryBehaviour.

(** ** Page-count estimation, further *)

Section PageCountBehaviour.

Lemma estimate_without_positive_page (chunks : list Document.t) :
  (∀ p, p ∈ observed_pages chunks → p <= 0) →
  _estimate_page_count chunks = Z.max 1 (Z.of_nat (length chunks) / 3).
Proof.
  intros Hpages. destruct chunks as [|c chunks]; [reflexivity|].
  unfold _estimate_page_count. rewrite max_page_loop_pages.
  pose proof (fold_max_upper _ 0 Hpages 0 (Z.le_refl 0)) as Hle.
  by apply Z.ltb_ge in Hle as ->.
Qed.

(** X3. The estimate is at least 1 for every list of chunks, with or
    without page metadata, whatever the page values are. *)
Theorem estimate_page_count_positive (chunks : list Document.t) :
  1 <= _estimate_page_count chunks.
Proof.
  destruct chunks as [|c chunks]; [reflexivity|].
  unfold _estimate_page_count.
  destruct (Z.ltb 0 _) eqn:Hpos; [apply Z.ltb_lt in Hpos|]; lia.
Qed.

(** X4. Page metadata counts only when some page value is positive: when
    every page value found is 0 or less (a one-page PDF whose loader numbers
    pages from 0), the estimate is the chunk-count fallback
    [max(1, chunk_count // 3)], as if there were no page metadata. *)
Theorem estimate_page_count_ignores_page_zero (chunks : list Document.t) :
  (∀ p, p ∈ observed_pages chunks → p <= 0) →
  _estimate_page_count chunks = Z.max 1 (Z.of_nat (length chunks) / 3).
Proof. apply estimate_without_positive_page. Qed.

Lemma estimate_page_count_ignores_page_zero_witness :
  _estimate_page_count nine_chunks_of_page_0 = Z.max 1 (9 / 3).
Proof.
  apply (estimate_page_count_ignores_page_zero nine_chunks_of_page_0).
  intros p Hp. vm_compute in Hp.
  repeat (apply elem_of_cons in Hp as [->|Hp]; [lia|]). inversion Hp.
Defined.

(** X5. For a document without page metadata the estimate exceeds a page
    limit of at least 1 exactly when it has [3 * (limit + 1)] chunks or
    more: with the default limit of 50, from 153 chunks on. *)
Theorem estimate_exceeds_limit_by_chunk_count (chunks : list Document.t)
    (limit : Z) :
  observed_pages chunks = [] → 1 <= limit →
  limit < _estimate_page_count chunks
  ↔ 3 * (limit + 1) <= Z.of_nat (length chunks).
Proof.
  intros Hnone Hlimit.
  rewrite estimate_without_positive_page
    by (rewrite Hnone; intros p Hp; inversion Hp).
  pose proof (Z.div_mod (Z.of_nat (length chunks)) 3 ltac:(lia)) as Hdiv.
  pose proof (Z.mod_pos_bound (Z.of_nat (length chunks)) 3 ltac:(lia)) as Hmod.
  lia.
Qed.

Lemma estimate_exceeds_limit_by_chunk_count_witness :
  50 < _estimate_page_count (replicate 153 chunk_without_page)
  ↔ 3 * (50 + 1) <= Z.of_nat (length (replicate 153 chunk_without_page)).
Proof.
  apply (estimate_exceeds_limit_by_chunk_count
           (replicate 153 chunk_without_page) 50); [reflexivity | lia].
Defined.

Lemma fold_max_permutation (l l' : list Z) :
  l ≡ₚ l' → ∀ acc, fold_left Z.max l acc = fold_left Z.max l' acc.
Proof.
  induction 1 as [|x l l' _ IH|x y l|l l' l'' _ IH1 _ IH2]; intros acc; simpl.
  - reflexivity.
  - apply IH.
  - f_equal. lia.
  - by rewrite IH1.
Qed.

(** X6. The estimate does not depend on the order of the chunks. *)
Theorem estimate_page_count_permutation (chunks chunks' : list Document.t) :
  chunks ≡ₚ chunks' →
  _estimate_page_count chunks = _estimate_page_count chunks'.
Proof.
  intros Hperm.
  assert (observed_pages chunks ≡ₚ observed_pages chunks') as Hpages.
  { unfold observed_pages. by rewrite Hperm. }
  pose proof (Permutation_length Hperm) as Hlen.
  destruct chunks as [|c chunks], chunks' as [|c' chunks'];
    try discriminate; [reflexivity|].
  unfold _estimate_page_count.
  by rewrite !max_page_loop_pages, (fold_max_permutation _ _ Hpages 0), Hlen.
Qed.

Lemma estimate_page_count_permutation_witness :
  _estimate_page_count pages_1_1_2_3_3_3
  = _estimate_page_count (reverse pages_1_1_2_3_3_3).
Proof.
  apply (estimate_page_count_permutation pages_1_1_2_3_3_3
           (reverse pages_1_1_2_3_3_3)).
  symmetry. apply reverse_Permutation.
Defined.
End PageCountBehaviour.

(** ** The vector store *)

Section VectorStoreBehaviour.
Import VectorStoreService.

Lemma elem_of_list_collections (name : string) (store : VectorStoreService.t) :
  name ∈ list_collections store ↔ is_Some (_collections store !! name).
Proof.
  unfold list_collections. rewrite list_elem_of_fmap. split.
  - intros ([n coll] & -> & Hin). apply elem_of_map_to_list in Hin. eauto.
  - intros [coll Hcoll]. exists (name, coll). split; [done|].
    by apply elem_of_map_to_list.
Qed.

(** X7. A [create_collection] that succeeds found the name free, returns the
    number of documents, and leaves a store in which the name is listed and
    resolves to the collection the backend built, every other name resolving
    as before. *)
Theorem create_collection_success (name : string) (documents : list Document.t)
    (store store' : VectorStoreService.t) (n : Z) :
  create_collection name documents store = (inr n, store') →
  _collections store !! name = None
  ∧ n = Z.of_nat (length documents)
  ∧ from_documents store documents name = get_collection name store'
  ∧ name ∈ list_collections store'
  ∧ ∀ other, other ≠ name →
      get_collection other store' = get_collection other store.
Proof.
  unfold create_collection.
  destruct (_collections store !! name) eqn:Hfree; [discriminate|].
  destruct (from_documents store documents name) as [e|v] eqn:Hv;
    [discriminate|].
  intros [= <- <-]. repeat split.
  - unfold get_collection. simpl. by rewrite lookup_insert_eq.
  - apply elem_of_list_collections. simpl. rewrite lookup_insert_eq. eauto.
  - intros other Hother. unfold get_collection. simpl.
    by rewrite lookup_insert_ne.
Qed.

Lemma create_collection_success_witness :
  _collections empty_store !! "session_fedcba987654" = None
  ∧ 6 = Z.of_nat (length pages_1_1_2_3_3_3)
  ∧ from_documents empty_store pages_1_1_2_3_3_3 "session_fedcba987654"
    = get_collection "session_fedcba987654"
        (create_collection "session_fedcba987654" pages_1_1_2_3_3_3
           empty_store).2
  ∧ "session_fedcba987654"
    ∈ list_collections
        (create_collection "session_fedcba987654" pages_1_1_2_3_3_3
           empty_store).2
  ∧ ∀ other, other ≠ "session_fedcba987654" →
      get_collection other
        (create_collection "session_fedcba987654" pages_1_1_2_3_3_3
           empty_store).2
      = get_collection other empty_store.
Proof.
  apply (create_collection_success "session_fedcba987654" pages_1_1_2_3_3_3
           empty_store).
  vm_compute. reflexivity.
Defined.

(** X8. [create_collection] never overwrites: on a name the store already
    holds it raises [ValueError] without asking the backend, and whenever it
    raises, for that or for a backend failure, the store is unchanged. *)
Theorem create_collection_never_overwrites (name : string)
    (documents : list Document.t) (store : VectorStoreService.t) :
  (is_Some (_collections store !! name) →
   create_collection name documents store
   = (inl (ValueError ("Collection '" +:+ name +:+ "' already exists")), store))
  ∧ ∀ e store',
      create_collection name documents store = (inl e, store') → store' = store.
Proof.
  unfold create_collection. split.
  - by intros [coll ->].
  - intros e store'. destruct (_collections store !! name).
    + by intros [= _ <-].
    + destruct (from_documents store documents name); [|discriminate].
      by intros [= _ <-].
Qed.

Lemma create_collection_never_overwrites_witness :
  create_collection "session_0123456789ab" pages_1_1_2_3_3_3 example_store
  = (inl (ValueError "Collection 'session_0123456789ab' already exists"),
     example_store).
Proof.
  apply (proj1 (create_collection_never_overwrites "session_0123456789ab"
                  pages_1_1_2_3_3_3 example_store)).
  vm_compute. eauto.
Defined.

(** X9. After a [delete_collection] that returns, the name is gone: it
    returned [False] exactly when the store did not hold the name;
    [get_collection] and [query] on the name raise
    [CollectionNotFoundError]; every other name resolves as before. *)
Theorem delete_collection_removes (settings : Settings.t) (name : string)
    (store store' : VectorStoreService.t) (deleted : bool) :
  delete_collection name store = (inr deleted, store') →
  (deleted = false ↔ _collections store !! name = None)
  ∧ get_collection name store' = inl (CollectionNotFoundError name)
  ∧ (∀ text top_k,
       query settings name text top_k store'
       = inl (CollectionNotFoundError name))
  ∧ (name ∉ list_collections store')
  ∧ ∀ other, other ≠ name →
      get_collection other store' = get_collection other store.
Proof.
  unfold delete_collection.
  destruct (_collections store !! name) as [coll|] eqn:Hcoll.
  - destruct (Chroma.delete_collection coll); [discriminate|].
    intros [= <- <-].
    assert (get_collection name
              (set_collections (delete name (_collections store)) store)
            = inl (CollectionNotFoundError name)) as Hget.
    { unfold get_collection. simpl. by rewrite lookup_delete_eq. }
    repeat split; try done.
    + intros text top_k. unfold query. by rewrite Hget.
    + rewrite elem_of_list_collections. simpl. rewrite lookup_delete_eq.
      by intros [? ?].
    + intros other Hother. unfold get_collection. simpl.
      by rewrite lookup_delete_ne.
  - intros [= <- <-].
    assert (get_collection name store = inl (CollectionNotFoundError name))
      as Hget by (unfold get_collection; by rewrite Hcoll).
    repeat split; try done.
    + intros text top_k. unfold query. by rewrite Hget.
    + rewrite elem_of_list_collections, Hcoll. by intros [? ?].
Qed.

Lemma delete_collection_removes_witness :
  let store' := (delete_collection "session_0123456789ab" example_store).2 in
  (true = false ↔ _collections example_store !! "session_0123456789ab" = None)
  ∧ get_collection "session_0123456789ab" store'
    = inl (CollectionNotFoundError "session_0123456789ab")
  ∧ (∀ text top_k,
       query Settings.default "session_0123456789ab" text top_k store'
       = inl (CollectionNotFoundError "session_0123456789ab"))
  ∧ ("session_0123456789ab" ∉ list_collections store')
  ∧ ∀ other, other ≠ "session_0123456789ab" →
      get_collection other store' = get_collection other example_store.
Proof.
  apply (delete_collection_removes Settings.default "session_0123456789ab"
           example_store).
  vm_compute. reflexivity.
Defined.

(** When Chroma refuses to delete a collection, [delete_collection]
    raises and the store keeps the collection: it still resolves. *)
Theorem delete_collection_failure_keeps (name : string)
    (store store' : VectorStoreService.t) (e : Exn) :
  delete_collection name store = (inl e, store') →
  store' = store
  ∧ (∃ coll, get_collection name store' = inr coll
             ∧ Chroma.delete_collection coll = inl e).
Proof.
  unfold delete_collection.
  destruct (_collections store !! name) as [coll|] eqn:Hcoll; [|discriminate].
  destruct (Chroma.delete_collection coll) as [e'|] eqn:Hdel; [|discriminate].
  intros [= <- <-]. split; [reflexivity|]. exists coll.
  unfold get_collection. by rewrite Hcoll.
Qed.

Lemma delete_collection_failure_keeps_witness :
  (delete_collection "session_0123456789ab" stuck_store).2 = stuck_store
  ∧ (∃ coll,
       get_collection "session_0123456789ab"
         (delete_collection "session_0123456789ab" stuck_store).2 = inr coll
       ∧ Chroma.delete_collection coll
         = inl (OtherException "database is locked")).
Proof.
  apply (delete_collection_failure_keeps "session_0123456789ab" stuck_store).
  vm_compute. reflexivity.
Defined.

(** X10. Creating a collection under a free name and deleting it again
    gives back the collections the store had. *)
Theorem create_then_delete_restores (name : string)
    (documents : list Document.t) (store store1 : VectorStoreService.t)
    (n : Z) (vectorstore : Chroma.t) :
  create_collection name documents store = (inr n, store1) →
  from_documents store documents name = inr vectorstore →
  Chroma.delete_collection vectorstore = inr () →
  (delete_collection name store1).1 = inr true
  ∧ _collections (delete_collection name store1).2 = _collections store.
Proof.
  unfold create_collection.
  destruct (_collections store !! name) eqn:Hfree; [discriminate|].
  intros Hcreate Hv Hdel. rewrite Hv in Hcreate.
  injection Hcreate as <- <-.
  unfold delete_collection. simpl. rewrite lookup_insert_eq, Hdel. simpl.
  split; [reflexivity|]. by apply delete_insert_id.
Qed.

Lemma create_then_delete_restores_witness :
  let store1 :=
    (create_collection "session_fedcba987654" pages_1_1_2_3_3_3 empty_store).2 in
  (delete_collection "session_fedcba987654" store1).1 = inr true
  ∧ _collections (delete_collection "session_fedcba987654" store1).2
    = _collections empty_store.
Proof.
  apply (create_then_delete_restores "session_fedcba987654" pages_1_1_2_3_3_3
           empty_store _ 6 example_collection).
  - vm_compute. reflexivity.
  - reflexivity.
  - reflexivity.
Defined.
End VectorStoreBehaviour.

(** ** What [query] makes of the search results, and the LLM stream *)

Section QueryConversion.
Import VectorStoreService.

Lemma to_chunk_cases (result : Document.t * Q) :
  to_chunk result
  = if RetrievedChunk.valid (chunk_of_result result)
    then inr (chunk_of_result result)
    else inl (ValidationError "RetrievedChunk").
Proof. by destruct result as [doc score]. Qed.

Lemma mapM_to_chunk_inr (results : list (Document.t * Q)) :
  ∀ chunks, mapM to_chunk results = inr chunks →
            chunks = chunk_of_result <$> results.
Proof.
  intros chunks Hmap%mapM_inr_inv.
  induction Hmap as [|r c results chunks Hr _ IH]; [reflexivity|].
  rewrite to_chunk_cases in Hr.
  destruct (RetrievedChunk.valid _); [|discriminate].
  injection Hr as <-. csimpl. by rewrite IH.
Qed.

Lemma mapM_to_chunk_invalid (results : list (Document.t * Q)) :
  Exists (fun r => RetrievedChunk.valid (chunk_of_result r) = false) results →
  mapM to_chunk results = inl (ValidationError "RetrievedChunk").
Proof.
  induction 1 as [r results Hr|r results _ IH]; simpl.
  - by rewrite to_chunk_cases, Hr.
  - rewrite to_chunk_cases.
    destruct (RetrievedChunk.valid _); [|reflexivity].
    simpl. by rewrite IH.
Qed.

(** X11. When [query] returns, its chunks are the results of the collection's
    similarity search for the requested [top_k] (the configured default when
    none is given), one chunk per result and in the same order: the page is
    the metadata page plus 1 (1 without page metadata), the chunk index
    defaults to 0, the score is passed on, the source is the metadata
    filename, else its source, else ["unknown"]. *)
Theorem query_results_in_order (settings : Settings.t)
    (name text : string) (top_k : option Z) (store : VectorStoreService.t)
    (chunks : list RetrievedChunk.t) :
  query settings name text top_k store = inr chunks →
  ∃ coll results,
    get_collection name store = inr coll
    ∧ Chroma.similarity_search_with_relevance_scores coll text
        (default (Settings.top_k_chunks settings) top_k) = inr results
    ∧ chunks = chunk_of_result <$> results.
Proof.
  unfold query.
  destruct (get_collection name store) as [e|coll]; [discriminate|]. simpl.
  assert (match top_k with
          | Some k => k
          | None => Settings.top_k_chunks settings
          end = default (Settings.top_k_chunks settings) top_k) as ->
    by (by destruct top_k).
  destruct (Chroma.similarity_search_with_relevance_scores coll text _)
    as [e|results] eqn:Hsearch; [discriminate|]. simpl.
  intros Hmap%mapM_to_chunk_inr. eauto.
Qed.

Lemma query_results_in_order_witness :
  ∃ coll results,
    get_collection "session_0123456789ab" example_store = inr coll
    ∧ Chroma.similarity_search_with_relevance_scores coll "What is X?"
        (default (Settings.top_k_chunks Settings.default) None) = inr results
    ∧ QueryContext.chunks example_context = chunk_of_result <$> results.
Proof.
  apply (query_results_in_order Settings.default "session_0123456789ab"
           "What is X?" None example_store).
  vm_compute. reflexivity.
Defined.

(** X12. One search result with a relevance score below 0 or above 1 makes
    the whole [query] raise a validation error: no chunk is returned, not
    even those with scores in range. *)
Theorem query_rejects_score_out_of_range (settings : Settings.t)
    (name text : string) (top_k : option Z) (store : VectorStoreService.t)
    (coll : Chroma.t) (results : list (Document.t * Q)) (r : Document.t * Q) :
  get_collection name store = inr coll →
  Chroma.similarity_search_with_relevance_scores coll text
    (default (Settings.top_k_chunks settings) top_k) = inr results →
  r ∈ results →
  (r.2 < 0 ∨ 1 < r.2)%Q →
  query settings name text top_k store = inl (ValidationError "RetrievedChunk").
Proof.
  intros Hcoll Hsearch Hin Hscore. unfold query. rewrite Hcoll. simpl.
  assert (match top_k with
          | Some k => k
          | None => Settings.top_k_chunks settings
          end = default (Settings.top_k_chunks settings) top_k) as ->
    by (by destruct top_k).
  rewrite Hsearch. simpl. apply mapM_to_chunk_invalid.
  apply Exists_exists. exists r. split; [exact Hin|].
  unfold RetrievedChunk.valid, chunk_of_result. simpl.
  destruct Hscore as [Hlow|Hhigh].
  - destruct (Qle_bool 0 r.2) eqn:Hle.
    + apply Qle_bool_iff in Hle. by apply Qlt_not_le in Hlow.
    + by rewrite andb_false_r.
  - destruct (Qle_bool r.2 1) eqn:Hle.
    + apply Qle_bool_iff in Hle. by apply Qlt_not_le in Hhigh.
    + by rewrite andb_false_r.
Qed.

Lemma query_rejects_score_out_of_range_witness :
  query Settings.default "session_0123456789ab" "What is X?" None skewed_store
  = inl (ValidationError "RetrievedChunk").
Proof.
  apply (query_rejects_score_out_of_range Settings.default
           "session_0123456789ab" "What is X?" None skewed_store
           skewed_collection
           [example_passage 0;
            (Document.mk "far away" Metadata.empty, (-1 # 10)%Q);
            example_passage 1]
           (Document.mk "far away" Metadata.empty, (-1 # 10)%Q)).
  - vm_compute. reflexivity.
  - reflexivity.
  - right. left.
  - left. reflexivity.
Defined.

(** X13. [generate_stream] yields the non-empty chunk contents of the
    model's stream, in order, and never an empty token; it ends as the
    model's stream ends, except that an exception of the model is raised as
    an [LLMError] that wraps it, after the tokens already yielded. *)
Theorem generate_stream_tokens (prompt : string) (system_prompt : option string)
    (llm : LLMService.t) :
  let raw :=
    LLMService.astream llm (LLMService.build_messages prompt system_prompt) in
  let out := LLMService.generate_stream prompt system_prompt llm in
  Stream.yielded out = filter (fun content => content ≠ "") (Stream.yielded raw)
  ∧ Forall (fun tok => tok ≠ "") (Stream.yielded out)
  ∧ Stream.ending out
    = match Stream.ending raw with
      | Finished => Finished
      | Raised e =>
          Raised
            (LLMError "Failed to generate streaming response from LLM" (Some e))
      end.
Proof.
  simpl. unfold LLMService.generate_stream, Stream.except. simpl.
  destruct (Stream.ending (LLMService.astream llm _)); simpl;
    rewrite ?app_nil_r; repeat split;
    apply Forall_forall; by intros tok [? _]%list_elem_of_filter.
Qed.
End QueryConversion.

(** ** Every course of a query *)

Section QueryCourses.
Import StreamingQueryResponse.

Lemma generate_stream_nonempty prompt system_prompt llm :
  Forall (fun tok => tok ≠ "")
    (Stream.yielded (LLMService.generate_stream prompt system_prompt llm)).
Proof.
  unfold LLMService.generate_stream, Stream.except. simpl.
  destruct (Stream.ending (LLMService.astream llm _)); simpl;
    rewrite ?app_nil_r;
    apply Forall_forall; by intros tok [? _]%list_elem_of_filter.
Qed.

(** [query_stream] takes one of the four courses, and its tokens are never
    empty. *)
Lemma query_stream_course (settings : Settings.t) (question : string)
    (svc : QueryService.t) :
  ∃ course,
    QueryService.query_stream settings question svc = stream_of_course course
    ∧ Forall (fun tok => tok ≠ "") (tokens_of_course course).
Proof.
  destruct (SessionManager.is_active (QueryService._session_manager svc))
    eqn:Hactive.
  2: { exists NoSession. split; [|constructor].
       apply query_stream_inactive. by left. }
  destruct (SessionManager.collection_name (QueryService._session_manager svc))
    as [c|] eqn:Hname.
  2: { exists NoSession. split; [|constructor].
       apply query_stream_inactive. by right. }
  destruct (decide (c = "")) as [->|Hc].
  { exists NoSession. split; [|constructor].
    unfold QueryService.query_stream, QueryService.query_stream_body.
    by rewrite Hactive, Hname. }
  unfold QueryService.query_stream.
  rewrite (query_stream_body_active settings question svc c Hactive Hname Hc).
  destruct (QueryService._retrieve_context settings question c svc)
    as [e|context] eqn:Hctx.
  { exists (RetrievalFailed e). split; [reflexivity|constructor]. }
  unfold QueryService.stream_tokens.
  pose proof (generate_stream_nonempty
                (QueryService._build_prompt question context)
                (Some RAG_SYSTEM_PROMPT) (QueryService._llm svc)) as Hne.
  destruct (LLMService.generate_stream _ _ _) as [tokens [|e]] eqn:Hgen.
  - exists (Completed tokens (source_of <$> QueryContext.chunks context)).
    split; [|exact Hne].
    rewrite chunks_to_sources_valid; [reflexivity|].
    eapply query_valid, retrieve_context_inv, Hctx.
  - destruct (generate_stream_raised _ _ _ _ _ Hgen) as [cause ->].
    exists (GenerationFailed tokens cause). split; [|exact Hne].
    unfold Stream.seq, Stream.except. simpl. by rewrite !app_nil_r.
Qed.

Lemma event_loop_only_tokens (tokens : list string) (ending : Ending) :
  QueryRoute.event_loop (of_token <$> tokens) ending
  = Stream.mk (token_event <$> tokens) ending.
Proof.
  rewrite <- (app_nil_r (of_token <$> tokens)), event_loop_tokens.
  unfold Stream.seq. simpl. by rewrite app_nil_r.
Qed.

(** The stream of the route for each course. *)
Lemma event_generator_course (settings : Settings.t) (request : QueryRequest.t)
    (svc : QueryService.t) (course : QueryCourse) :
  QueryService.query_stream settings (QueryRequest.query request) svc
  = stream_of_course course →
  QueryRoute.event_generator settings request svc
  = Stream.mk
      ((token_event <$> tokens_of_course course)
         ++ match course with
            | NoSession =>
                [failure_event
                   "No document loaded. Please upload a document first."]
            | RetrievalFailed _ =>
                [failure_event
                   "Failed to retrieve relevant context from vector store"]
            | GenerationFailed _ _ =>
                [failure_event "Failed to generate response from LLM"]
            | Completed _ sources => [sources_event sources; done_event]
            end)
      Finished.
Proof.
  intros Hq. unfold QueryRoute.event_generator. rewrite Hq.
  destruct course as [|cause|tokens cause|tokens sources]; simpl;
    try reflexivity.
  - rewrite event_loop_only_tokens. reflexivity.
  - rewrite event_loop_tokens. reflexivity.
Qed.

(** X14. Whatever the session, the store and the model do, the stream of
    the query route ends without raising, and its events are token events
    followed by exactly one terminal part: one sources event and one done
    event when [query_stream] finished, or, when [query_stream] raised, one
    event named "error" that carries the text of the exception raised, which
    is a [NoActiveSessionError] or a [QueryError]. The route's own generic
    message is thus never sent. *)
Theorem event_generator_always_terminates (settings : Settings.t)
    (request : QueryRequest.t) (svc : QueryService.t) :
  ∃ tokens terminal,
    QueryRoute.event_generator settings request svc
    = Stream.mk ((token_event <$> tokens) ++ terminal) Finished
    ∧ ((∃ sources,
          Stream.ending
            (QueryService.query_stream settings (QueryRequest.query request)
               svc) = Finished
          ∧ terminal
            = [ServerSentEvent.mk "sources" (SourcesData sources);
               ServerSentEvent.mk "done" (StatusData "complete")])
       ∨ (∃ e,
            Stream.ending
              (QueryService.query_stream settings (QueryRequest.query request)
                 svc) = Raised e
            ∧ is_query_failure e
            ∧ terminal = [ServerSentEvent.mk "error" (ErrorData (str_exn e))])).
Proof.
  destruct (query_stream_course settings (QueryRequest.query request) svc)
    as (course & Hq & _).
  rewrite (event_generator_course settings request svc course Hq), Hq.
  exists (tokens_of_course course). eexists. split; [reflexivity|].
  unfold is_query_failure.
  destruct course as [|cause|tokens cause|tokens sources].
  - right. exists NoActiveSessionError.
    split; [reflexivity|]. split; [by left|reflexivity].
  - right. eexists. split; [reflexivity|].
    split; [right; by eexists _, _|reflexivity].
  - right. eexists. split; [reflexivity|].
    split; [right; by eexists _, _|reflexivity].
  - left. exists sources. by split.
Qed.

(** X15. [query_stream] never yields a response with its [error] field set,
    so the branch of the route that stops on such a response is never
    taken: failures reach the route as exceptions only. *)
Theorem query_stream_never_yields_error (settings : Settings.t)
    (question : string) (svc : QueryService.t) :
  Forall (fun response => error response = None)
    (Stream.yielded (QueryService.query_stream settings question svc)).
Proof.
  destruct (query_stream_course settings question svc) as (course & -> & _).
  destruct course as [|cause|tokens cause|tokens sources]; simpl;
    rewrite ?Forall_app, ?Forall_fmap; repeat split;
    try (apply Forall_forall; by intros);
    repeat constructor.
Qed.
End QueryCourses.

(** ** Failures of retrieval, error responses, and the non-streaming route *)

Section QueryRoutes.
Import StreamingQueryResponse.

(** X16. When the store's [query] raises (the session's collection is gone
    from the store, the search fails, a result does not validate), the query
    ends before any token: [query_stream] raises a [QueryError] that wraps
    the cause, the streaming route emits a single event, named "error" and
    carrying the fixed retrieval message, whatever the cause says, and the
    non-streaming route answers 422 with the same message. *)
Theorem retrieval_failure_single_error (settings : Settings.t)
    (request : QueryRequest.t) (svc : QueryService.t) (c : string) (e : Exn) :
  SessionManager.is_active (QueryService._session_manager svc) = true →
  SessionManager.collection_name (QueryService._session_manager svc) = Some c →
  c ≠ "" →
  VectorStoreService.query settings c (QueryRequest.query request)
    (Some (QueryService._top_k svc)) (QueryService._vector_store svc) = inl e →
  QueryService.query_stream settings (QueryRequest.query request) svc
  = Stream.mk []
      (Raised
         (QueryError "Failed to retrieve relevant context from vector store"
            (Some e)))
  ∧ QueryRoute.event_generator settings request svc
    = Stream.mk
        [ServerSentEvent.mk "error"
           (ErrorData "Failed to retrieve relevant context from vector store")]
        Finished
  ∧ QuerySyncRoute.query_document_sync settings request svc
    = HTTPRaised
        (HTTPException.mk 422
           "Failed to retrieve relevant context from vector store").
Proof.
  intros Hactive Hname Hc Hquery.
  assert (QueryService.query_stream settings (QueryRequest.query request) svc
          = stream_of_course (RetrievalFailed e)) as Hq.
  { unfold QueryService.query_stream.
    rewrite (query_stream_body_active settings _ svc c Hactive Hname Hc).
    unfold QueryService._retrieve_context. by rewrite Hquery. }
  split; [exact Hq|]. split.
  - by rewrite (event_generator_course settings request svc _ Hq).
  - unfold QuerySyncRoute.query_document_sync. by rewrite Hq.
Qed.

Lemma retrieval_failure_single_error_witness :
  let request := QueryRequest.mk "What is X?" None in
  QueryService.query_stream Settings.default "What is X?" orphaned_service
  = Stream.mk []
      (Raised
         (QueryError "Failed to retrieve relevant context from vector store"
            (Some (CollectionNotFoundError "session_0123456789ab"))))
  ∧ QueryRoute.event_generator Settings.default request orphaned_service
    = Stream.mk
        [ServerSentEvent.mk "error"
           (ErrorData "Failed to retrieve relevant context from vector store")]
        Finished
  ∧ QuerySyncRoute.query_document_sync Settings.default request
      orphaned_service
    = HTTPRaised
        (HTTPException.mk 422
           "Failed to retrieve relevant context from vector store").
Proof.
  apply (retrieval_failure_single_error Settings.default
           (QueryRequest.mk "What is X?" None) orphaned_service
           "session_0123456789ab"
           (CollectionNotFoundError "session_0123456789ab")).
  - reflexivity.
  - reflexivity.
  - discriminate.
  - vm_compute. reflexivity.
Defined.

Lemma on_response_plain (response : StreamingQueryResponse.t) :
  truthy_str (error response) = false →
  QueryRoute.on_response response = (events_of_response response, false).
Proof.
  intros Hr. unfold QueryRoute.on_response. by rewrite Hr.
Qed.

(** X17. The loop of the streaming route stops at the first response whose
    [error] is set: it emits the events of the responses before it (for
    each, a token event, a sources event and the done event, as far as the
    response carries them), then one event named "error" with that message,
    and nothing of what follows, neither the token the same response may
    carry, nor later responses, nor the exception the service stream would
    have ended with. *)
Theorem event_loop_stops_at_error
    (before after : list StreamingQueryResponse.t)
    (response : StreamingQueryResponse.t) (message : string)
    (ending : Ending) :
  Forall (fun r => truthy_str (error r) = false) before →
  error response = Some message → message ≠ "" →
  QueryRoute.event_loop (before ++ response :: after) ending
  = Stream.mk
      (events_of_responses before
         ++ [ServerSentEvent.mk "error" (ErrorData message)])
      Finished.
Proof.
  intros Hbefore Herror Hmessage.
  induction Hbefore as [|r before Hr _ IH]; simpl.
  - unfold QueryRoute.on_response. rewrite Herror.
    by rewrite (truthy_str_Some message Hmessage).
  - rewrite (on_response_plain r Hr), IH.
    unfold events_of_responses. csimpl.
    unfold Stream.seq. simpl. by rewrite <- !app_assoc.
Qed.

Lemma event_loop_stops_at_error_witness :
  QueryRoute.event_loop
    ([of_token "The "; of_sources []]
       ++ error_response :: [of_token "answer"; done])
    (Raised (OtherException "never reached"))
  = Stream.mk
      [ServerSentEvent.mk "token" (TokenData "The ");
       ServerSentEvent.mk "sources" (SourcesData []);
       ServerSentEvent.mk "error" (ErrorData "backend gone")]
      Finished.
Proof.
  apply (event_loop_stops_at_error [of_token "The "; of_sources []]
           [of_token "answer"; done] error_response "backend gone").
  - repeat constructor.
  - reflexivity.
  - discriminate.
Defined.

Lemma collect_tokens (tokens : list string) :
  Forall (fun tok => tok ≠ "") tokens →
  ∀ acc, fold_left QuerySyncRoute.collect (of_token <$> tokens) acc
         = (acc.1 ++ tokens, acc.2).
Proof.
  induction 1 as [|tok tokens Htok _ IH]; intros [acc1 acc2]; csimpl.
  - by rewrite app_nil_r.
  - rewrite IH. unfold QuerySyncRoute.collect. simpl.
    apply String.eqb_neq in Htok as ->. simpl. by rewrite <- app_assoc.
Qed.

(** X18. The non-streaming route agrees with the streaming one on every
    query and never lets an exception escape: when it responds, the stream
    is tokens, sources, done, the answer is the concatenation of those
    tokens and the sources are those of the sources event; when it raises an
    [HTTPException], [query_stream] raised, the detail is the text of that
    exception, the stream ends with the event named "error" carrying the
    same text, and the status is 400 for a [NoActiveSessionError] and 422
    for a [QueryError]. *)
Theorem query_document_sync_agrees (settings : Settings.t)
    (request : QueryRequest.t) (svc : QueryService.t) :
  ∃ tokens,
    match QuerySyncRoute.query_document_sync settings request svc with
    | Responded response =>
        QueryRoute.event_generator settings request svc
        = Stream.mk
            ((token_event <$> tokens)
               ++ [ServerSentEvent.mk "sources"
                     (SourcesData (QueryResponse.sources response));
                   ServerSentEvent.mk "done" (StatusData "complete")])
            Finished
        ∧ QueryResponse.answer response = String.concat "" tokens
    | HTTPRaised e =>
        ∃ raised,
          Stream.ending
            (QueryService.query_stream settings (QueryRequest.query request)
               svc) = Raised raised
          ∧ HTTPException.detail e = str_exn raised
          ∧ QueryRoute.event_generator settings request svc
            = Stream.mk
                ((token_event <$> tokens)
                   ++ [ServerSentEvent.mk "error"
                         (ErrorData (HTTPException.detail e))])
                Finished
          ∧ (raised = NoActiveSessionError
             ∧ HTTPException.status_code e = 400
             ∨ (∃ message cause, raised = QueryError message cause)
               ∧ HTTPException.status_code e = 422)
    | Escaped _ => False
    end.
Proof.
  destruct (query_stream_course settings (QueryRequest.query request) svc)
    as (course & Hq & Hne).
  exists (tokens_of_course course).
  rewrite (event_generator_course settings request svc course Hq).
  unfold QuerySyncRoute.query_document_sync. rewrite Hq.
  destruct course as [|cause|tokens cause|tokens sources]; simpl in *.
  - exists NoActiveSessionError. split; [reflexivity|].
    split; [reflexivity|]. split; [reflexivity|]. by left.
  - eexists. split; [reflexivity|].
    split; [reflexivity|]. split; [reflexivity|].
    right. split; [by eexists _, _|reflexivity].
  - rewrite (collect_tokens tokens Hne). simpl.
    eexists. split; [reflexivity|].
    split; [reflexivity|]. split; [reflexivity|].
    right. split; [by eexists _, _|reflexivity].
  - rewrite fold_left_app, (collect_tokens tokens Hne). simpl.
    by destruct sources.
Qed.
End QueryRoutes.

(** ** The upload pipeline, further *)

Section UploadBehaviour.
Import DocumentService.


Lemma expected_or_wrapped_expected (e : Exn) :
  is_upload_error (expected_or_wrapped e) = true.
Proof. by destruct e. Qed.


Lemma process_upload_error (file : UploadFile.t) (env : Env.t)
    (ds : DocumentService.t) (w w' : World.t) (e : Exn) :
  process_upload file env ds w = (inl e, w') → is_upload_error e = true.
Proof.
  unfold process_upload. upload_unfold.
  destruct (process_upload_body file env ds w) as [[e'|response] w''];
    [|discriminate].
  intros [= <- _]. apply expected_or_wrapped_expected.
Qed.

(** X19. [upload_document] never lets an exception other than an
    [HTTPException] out: [process_upload] raises only its four documented
    kinds, whatever the validation, the read, the processor or the store
    raise, and the route answers each with status 400, 413 or 422. *)
Theorem upload_document_never_escapes (file : UploadFile.t) (env : Env.t)
    (ds : DocumentService.t) (w : World.t) :
  match (DocumentsRoute.upload_document file env ds w).1 with
  | Responded response =>
      (process_upload file env ds w).1 = inr response
  | HTTPRaised e =>
      HTTPException.status_code e ∈ [400; 413; 422]
      ∧ ∃ cause, (process_upload file env ds w).1 = inl cause
                 ∧ is_upload_error cause = true
                 ∧ HTTPException.detail e = str_exn cause
  | Escaped _ => False
  end.
Proof.
  unfold DocumentsRoute.upload_document.
  destruct (process_upload file env ds w) as [[e|response] w'] eqn:Hup;
    simpl; [|reflexivity].
  pose proof (process_upload_error _ _ _ _ _ _ Hup) as He.
  destruct e; try discriminate; simpl;
    (split; [set_solver | eexists; repeat split; reflexivity]).
Qed.



(** X21. A document over the page limit is rejected after the old session
    is cleaned up and before anything is created: [process_upload] raises
    [PageLimitExceededError] with the estimate and the limit, no session is
    created and the store is what the clean-up left; the route answers 400
    with the page counts in its message. *)
Theorem page_limit_rejection (file : UploadFile.t) (env : Env.t)
    (ds : DocumentService.t) (w : World.t) (path content : string)
    (doc : ProcessedDocument.t) :
  _validate_file file ds = inr () →
  _save_temp_file file env = inr (path, content) →
  _document_processor ds path content = inr doc →
  Settings.max_page_limit (_settings ds)
  < _estimate_page_count (ProcessedDocument.chunks doc) →
  let pages := _estimate_page_count (ProcessedDocument.chunks doc) in
  let limit := Settings.max_page_limit (_settings ds) in
  process_upload file env ds w
  = (inl (PageLimitExceededError pages limit), (_cleanup_old_session w).2)
  ∧ (DocumentsRoute.upload_document file env ds w).1
    = HTTPRaised
        (HTTPException.mk 400
           ("Document has " +:+ str_int pages +:+ " pages, exceeds limit of "
              +:+ str_int limit +:+ " pages")).
Proof.
  intros Hvalid Hsaved Hdoc Hover pages limit.
  destruct (cleanup_old_session_inactive w) as (w1 & Hclean & _).
  assert (process_upload file env ds w
          = (inl (PageLimitExceededError pages limit), w1)) as Hup.
  { unfold process_upload, process_upload_body, process_saved. upload_unfold.
    rewrite Hvalid, Hsaved, Hclean. simpl. rewrite Hdoc. simpl.
    by apply Z.ltb_lt in Hover as ->. }
  rewrite Hclean. split; [exact Hup|].
  unfold DocumentsRoute.upload_document. by rewrite Hup.
Qed.

Lemma page_limit_rejection_witness :
  process_upload example_upload example_env long_document_service example_world
  = (inl (PageLimitExceededError 60 50),
     (_cleanup_old_session example_world).2)
  ∧ (DocumentsRoute.upload_document example_upload example_env
       long_document_service example_world).1
    = HTTPRaised
        (HTTPException.mk 400
           "Document has 60 pages, exceeds limit of 50 pages").
Proof.
  apply (page_limit_rejection example_upload example_env long_document_service
           example_world "/tmp/tmpab12cd.pdf" "%PDF-1.7"
           (ProcessedDocument.mk "tmpab12cd.pdf" "pdf" 2
              [chunk_with_page 1; chunk_with_page 60])).
  - vm_compute. reflexivity.
  - vm_compute. reflexivity.
  - vm_compute. reflexivity.
  - vm_compute. reflexivity.
Defined.

Lemma estimate_lower_bound (chunks : list Document.t) :
  1 <= _estimate_page_count chunks.
Proof.
  destruct chunks as [|c chunks]; [reflexivity|].
  unfold _estimate_page_count.
  destruct (Z.ltb 0 _) eqn:Hpos; [apply Z.ltb_lt in Hpos|]; lia.
Qed.

(** A successful upload passed validation and the save, and steps 4 to 8
    succeeded on the world the clean-up left. *)
Lemma process_upload_success_inv (file : UploadFile.t) (env : Env.t)
    (ds : DocumentService.t) (w w' : World.t)
    (response : DocumentUploadResponse.t) :
  process_upload file env ds w = (inr response, w') →
  ∃ path content,
    _validate_file file ds = inr ()
    ∧ _save_temp_file file env = inr (path, content)
    ∧ process_saved file env path content ds (_cleanup_old_session w).2
      = (inr response, w').
Proof.
  unfold process_upload, process_upload_body. upload_unfold.
  destruct (_validate_file file ds) as [e|[]]; [discriminate|].
  destruct (_save_temp_file file env) as [e|[path content]]; [discriminate|].
  destruct (cleanup_old_session_inactive w) as (w1 & Hclean & _).
  rewrite Hclean. simpl.
  destruct (process_saved file env path content ds w1) as [[e|r] w'']
    eqn:Hsaved; [discriminate|].
  intros [= <- <-]. eauto.
Qed.

(** What steps 4 to 8 leave when they succeed. *)
Lemma process_saved_success_world (file : UploadFile.t) (env : Env.t)
    (path content : string) (ds : DocumentService.t) (w1 w' : World.t)
    (response : DocumentUploadResponse.t) :
  process_saved file env path content ds w1 = (inr response, w') →
  ∃ doc coll,
    let name := "session_" +:+ String.substring 0 12 (Env.uuid_hex env) in
    _document_processor ds path content = inr doc
    ∧ VectorStoreService._collections (World.vector_store w1) !! name = None
    ∧ VectorStoreService.from_documents (World.vector_store w1)
        (ProcessedDocument.chunks doc) name = inr coll
    ∧ World.session_manager w'
      = SessionState.mk true (Some (DocumentUploadResponse.filename response))
          (_estimate_page_count (ProcessedDocument.chunks doc))
          (ProcessedDocument.total_chunks doc) (Some (Env.now env)) (Some name)
    ∧ World.vector_store w'
      = VectorStoreService.set_collections
          (<[name := coll]>
             (VectorStoreService._collections (World.vector_store w1)))
          (World.vector_store w1)
    ∧ DocumentUploadResponse.total_chunks response
      = ProcessedDocument.total_chunks doc
    ∧ _estimate_page_count (ProcessedDocument.chunks doc)
      <= Settings.max_page_limit (_settings ds).
Proof.
  unfold process_saved. upload_unfold.
  destruct (_document_processor ds path content) as [e0|doc]; simpl;
    [discriminate|].
  destruct (Z.ltb _ _) eqn:Hlimit; simpl; [discriminate|].
  apply Z.ltb_ge in Hlimit.
  unfold VectorStoreService.create_collection.
  destruct (VectorStoreService._collections _ !! _) eqn:Hfree; simpl;
    [discriminate|].
  destruct (VectorStoreService.from_documents _ _ _) as [e1|coll] eqn:Hcoll;
    simpl; [discriminate|].
  intros [= <- <-]. exists doc, coll. simpl. by repeat split.
Qed.

(** The clean-up when the old collection is deleted, and when Chroma
    refuses. *)
Lemma cleanup_old_session_deletes (w : World.t) (c : string) (coll : Chroma.t) :
  SessionManager.is_active (World.session_manager w) = true →
  SessionManager.collection_name (World.session_manager w) = Some c →
  c ≠ "" →
  VectorStoreService._collections (World.vector_store w) !! c = Some coll →
  Chroma.delete_collection coll = inr () →
  _cleanup_old_session w
  = (inr (),
     World.mk SessionState.default
       (VectorStoreService.set_collections
          (delete c (VectorStoreService._collections (World.vector_store w)))
          (World.vector_store w))).
Proof.
  intros Hactive Hname Hc Hcoll Hdel.
  unfold _cleanup_old_session. upload_unfold. simpl.
  rewrite Hactive, Hname, (truthy_str_Some c Hc). simpl.
  unfold VectorStoreService.delete_collection. by rewrite Hcoll, Hdel.
Qed.

Lemma cleanup_old_session_stuck (w : World.t) (c : string) (coll : Chroma.t)
    (e : Exn) :
  SessionManager.is_active (World.session_manager w) = true →
  SessionManager.collection_name (World.session_manager w) = Some c →
  c ≠ "" →
  VectorStoreService._collections (World.vector_store w) !! c = Some coll →
  Chroma.delete_collection coll = inl e →
  _cleanup_old_session w
  = (inr (), World.mk SessionState.default (World.vector_store w)).
Proof.
  intros Hactive Hname Hc Hcoll Hdel.
  unfold _cleanup_old_session. upload_unfold. simpl.
  rewrite Hactive, Hname, (truthy_str_Some c Hc). simpl.
  unfold VectorStoreService.delete_collection. by rewrite Hcoll, Hdel.
Qed.

(** X22. A successful upload over an active session whose collection Chroma
    deletes replaces that collection: the registry names the new collection,
    the store lists it, and, the two names being different, the old
    collection is gone from the store and a [query] on it raises
    [CollectionNotFoundError]. *)
Theorem upload_replaces_collection (settings : Settings.t)
    (file : UploadFile.t) (env : Env.t) (ds : DocumentService.t)
    (w w' : World.t) (response : DocumentUploadResponse.t)
    (c : string) (coll : Chroma.t) :
  SessionManager.is_active (World.session_manager w) = true →
  SessionManager.collection_name (World.session_manager w) = Some c →
  c ≠ "" →
  VectorStoreService._collections (World.vector_store w) !! c = Some coll →
  Chroma.delete_collection coll = inr () →
  process_upload file env ds w = (inr response, w') →
  let name := "session_" +:+ String.substring 0 12 (Env.uuid_hex env) in
  c ≠ name →
  SessionManager.collection_name (World.session_manager w') = Some name
  ∧ name ∈ VectorStoreService.list_collections (World.vector_store w')
  ∧ (c ∉ VectorStoreService.list_collections (World.vector_store w'))
  ∧ ∀ text top_k,
      VectorStoreService.query settings c text top_k (World.vector_store w')
      = inl (CollectionNotFoundError c).
Proof.
  intros Hactive Hname Hc Hcoll Hdel Hup name Hfresh.
  apply process_upload_success_inv in Hup as (path & content & _ & _ & Hsaved).
  rewrite (cleanup_old_session_deletes w c coll) in Hsaved by done.
  apply process_saved_success_world in Hsaved
    as (doc & coll' & _ & _ & _ & Hsession & Hstore & _).
  simpl in Hstore. fold name in Hsession, Hstore.
  rewrite Hsession, Hstore. simpl.
  assert ((<[name := coll']>
             (delete c (VectorStoreService._collections (World.vector_store w))))
            !! c = None) as Hgone
    by (by rewrite lookup_insert_ne, lookup_delete_eq).
  repeat split.
  - apply elem_of_list_collections. simpl. rewrite lookup_insert_eq. eauto.
  - rewrite elem_of_list_collections. simpl. rewrite Hgone. by intros [? ?].
  - intros text top_k.
    unfold VectorStoreService.query, VectorStoreService.get_collection.
    simpl. by rewrite Hgone.
Qed.

Lemma upload_replaces_collection_witness :
  let w' :=
    (process_upload example_upload example_env example_document_service
       example_world).2 in
  SessionManager.collection_name (World.session_manager w')
  = Some "session_fedcba987654"
  ∧ "session_fedcba987654"
    ∈ VectorStoreService.list_collections (World.vector_store w')
  ∧ ("session_0123456789ab"
     ∉ VectorStoreService.list_collections (World.vector_store w'))
  ∧ ∀ text top_k,
      VectorStoreService.query Settings.default "session_0123456789ab" text
        top_k (World.vector_store w')
      = inl (CollectionNotFoundError "session_0123456789ab").
Proof.
  apply (upload_replaces_collection Settings.default example_upload
           example_env example_document_service example_world _
           (DocumentUploadResponse.mk "report.pdf" "pdf" 6
              "Document uploaded and processed successfully")
           "session_0123456789ab" example_collection).
  - reflexivity.
  - reflexivity.
  - discriminate.
  - vm_compute. reflexivity.
  - reflexivity.
  - vm_compute. reflexivity.
  - discriminate.
Defined.

(** X23. A stale collection does not block an upload: when Chroma refuses
    to delete the old collection, the registry is cleared all the same, the
    old collection stays in the store, and the upload goes on exactly as it
    would from an idle registry over the same store. *)
Theorem stale_collection_does_not_block (file : UploadFile.t) (env : Env.t)
    (ds : DocumentService.t) (w : World.t) (c : string) (coll : Chroma.t)
    (e : Exn) :
  SessionManager.is_active (World.session_manager w) = true →
  SessionManager.collection_name (World.session_manager w) = Some c →
  c ≠ "" →
  VectorStoreService._collections (World.vector_store w) !! c = Some coll →
  Chroma.delete_collection coll = inl e →
  _validate_file file ds = inr () →
  (∃ saved, _save_temp_file file env = inr saved) →
  _cleanup_old_session w
  = (inr (), World.mk SessionState.default (World.vector_store w))
  ∧ process_upload file env ds w
    = process_upload file env ds
        (World.mk SessionState.default (World.vector_store w)).
Proof.
  intros Hactive Hname Hc Hcoll Hdel Hvalid [saved Hsaved].
  pose proof (cleanup_old_session_stuck w c coll e Hactive Hname Hc Hcoll Hdel)
    as Hclean.
  split; [exact Hclean|].
  unfold process_upload, process_upload_body. upload_unfold.
  rewrite Hvalid, Hsaved, Hclean. reflexivity.
Qed.

Lemma stale_collection_does_not_block_witness :
  _cleanup_old_session stuck_world
  = (inr (), World.mk SessionState.default (World.vector_store stuck_world))
  ∧ process_upload example_upload example_env example_document_service
      stuck_world
    = process_upload example_upload example_env example_document_service
        (World.mk SessionState.default (World.vector_store stuck_world)).
Proof.
  apply (stale_collection_does_not_block example_upload example_env
           example_document_service stuck_world "session_0123456789ab"
           stuck_collection (OtherException "database is locked")).
  - reflexivity.
  - reflexivity.
  - discriminate.
  - vm_compute. reflexivity.
  - reflexivity.
  - vm_compute. reflexivity.
  - eexists. vm_compute. reflexivity.
Defined.

(** X24. After a successful upload the health check reports the uploaded
    document: a session is active, the filename and the chunk count are
    those of the upload response, and the page count is between 1 and the
    configured limit. *)
Theorem upload_then_health_check (file : UploadFile.t) (env : Env.t)
    (ds : DocumentService.t) (w w' : World.t)
    (response : DocumentUploadResponse.t) :
  process_upload file env ds w = (inr response, w') →
  let health := HealthRoute.health_check (World.session_manager w') in
  HealthResponse.session_active health = true
  ∧ HealthResponse.document_loaded health = true
  ∧ HealthResponse.filename health
    = Some (DocumentUploadResponse.filename response)
  ∧ HealthResponse.chunk_count health
    = Some (DocumentUploadResponse.total_chunks response)
  ∧ ∃ pages, HealthResponse.page_count health = Some pages
             ∧ 1 <= pages <= Settings.max_page_limit (_settings ds).
Proof.
  intros Hup.
  apply process_upload_success_inv in Hup as (path & content & _ & _ & Hsaved).
  apply process_saved_success_world in Hsaved
    as (doc & coll & _ & _ & _ & Hsession & _ & Hchunks & Hlimit).
  simpl. unfold HealthRoute.health_check, SessionManager.get_state.
  rewrite Hsession. simpl. rewrite Hchunks. repeat split.
  eexists. split; [reflexivity|].
  split; [apply estimate_lower_bound | exact Hlimit].
Qed.

Lemma upload_then_health_check_witness :
  let health :=
    HealthRoute.health_check
      (World.session_manager
         (process_upload example_upload example_env example_document_service
            example_world).2) in
  HealthResponse.session_active health = true
  ∧ HealthResponse.document_loaded health = true
  ∧ HealthResponse.filename health = Some "report.pdf"
  ∧ HealthResponse.chunk_count health = Some 6
  ∧ ∃ pages, HealthResponse.page_count health = Some pages
             ∧ 1 <= pages <= 50.
Proof.
  apply (upload_then_health_check example_upload example_env
           example_document_service example_world _
           (DocumentUploadResponse.mk "report.pdf" "pdf" 6
              "Document uploaded and processed successfully")).
  vm_compute. reflexivity.
Defined.

Lemma cleanup_old_session_idle (w : World.t) :
  SessionManager.is_active (World.session_manager w) = false →
  _cleanup_old_session w = (inr (), w).
Proof.
  intros Hidle. unfold _cleanup_old_session. upload_unfold. simpl.
  by rewrite Hidle.
Qed.

Lemma process_saved_failure_world (file : UploadFile.t) (env : Env.t)
    (path content : string) (ds : DocumentService.t) (w1 w' : World.t)
    (e : Exn) :
  process_saved file env path content ds w1 = (inl e, w') →
  w' = w1 ∨ w' = World.mk SessionState.default (World.vector_store w1).
Proof.
  unfold process_saved. upload_unfold.
  destruct (_document_processor ds path content) as [e0|doc]; simpl.
  { intros [= _ <-]. by left. }
  destruct (Z.ltb _ _); simpl.
  { intros [= _ <-]. by left. }
  destruct (VectorStoreService.create_collection _ _ _) as [[e1|n] store']
    eqn:Hcreate; simpl; [|discriminate].
  intros [= _ <-]. right.
  apply (f_equal fst) in Hcreate as Hfst. simpl in Hfst.
  apply create_collection_failure_unchanged in Hfst.
  rewrite Hfst in Hcreate. by injection Hcreate as <-.
Qed.

Lemma store_in_step_idle (w : World.t) :
  store_in_step w →
  SessionManager.is_active (World.session_manager w) = false →
  ∀ c, VectorStoreService._collections (World.vector_store w) !! c = None.
Proof.
  intros (Hconsistent & Hstep & _) Hidle c.
  destruct (VectorStoreService._collections _ !! c) as [coll|] eqn:Hc;
    [|reflexivity].
  assert (SessionManager.collection_name (World.session_manager w) = Some c)
    as Hname by (apply Hstep; eauto).
  assert (SessionManager.is_active (World.session_manager w) = true) as Hact.
  { apply Hconsistent. unfold SessionManager.collection_name in Hname.
    by rewrite Hname. }
  congruence.
Qed.

Lemma cleanup_keeps_store_in_step (w : World.t) :
  store_in_step w → deletes_cleanly (World.vector_store w) →
  store_in_step (_cleanup_old_session w).2
  ∧ deletes_cleanly (World.vector_store (_cleanup_old_session w).2).
Proof.
  intros Hw Hdel.
  destruct (SessionManager.is_active (World.session_manager w)) eqn:Hactive.
  2: { by rewrite (cleanup_old_session_idle w Hactive). }
  destruct Hw as (Hconsistent & Hstep & Hempty).
  destruct (SessionManager.collection_name (World.session_manager w))
    as [c|] eqn:Hname.
  2: { unfold SessionManager.consistent in Hconsistent.
       unfold SessionManager.collection_name in Hname.
       rewrite Hname in Hconsistent. by apply Hconsistent in Hactive. }
  assert (is_Some (VectorStoreService._collections (World.vector_store w) !! c))
    as [coll Hcoll] by (by apply Hstep).
  assert (c ≠ "") as Hc by (intros ->; congruence).
  rewrite (cleanup_old_session_deletes w c coll Hactive Hname Hc Hcoll
             (proj1 Hdel c coll Hcoll)). simpl.
  assert (∀ k, delete c (VectorStoreService._collections (World.vector_store w))
               !! k = None) as Hgone.
  { intros k. destruct (decide (c = k)) as [<-|Hne].
    - apply lookup_delete_eq.
    - rewrite lookup_delete_ne by done.
      destruct (VectorStoreService._collections _ !! k) eqn:Hk; [|reflexivity].
      assert (Some c = Some k) as [= ->] by (apply Hstep; eauto). done. }
  split; [split; [apply consistent_default|split]|split]; simpl.
  - intros k. rewrite Hgone. split; [by intros [? ?] | discriminate].
  - apply Hgone.
  - intros k coll'. by rewrite Hgone.
  - apply Hdel.
Qed.

(** X25. One live collection per session: if the store holds exactly the
    collection of the active session (nothing when none is active) and
    Chroma never refuses a delete, this is again so after [process_upload],
    whether the upload succeeds or fails at any step. *)
Theorem upload_keeps_store_in_step (file : UploadFile.t) (env : Env.t)
    (ds : DocumentService.t) (w : World.t) :
  store_in_step w → deletes_cleanly (World.vector_store w) →
  store_in_step (process_upload file env ds w).2
  ∧ deletes_cleanly (World.vector_store (process_upload file env ds w).2).
Proof.
  intros Hw Hdel.
  unfold process_upload, process_upload_body. upload_unfold.
  destruct (_validate_file file ds) as [e|[]]; [done|].
  destruct (_save_temp_file file env) as [e|saved]; [done|].
  destruct (cleanup_keeps_store_in_step w Hw Hdel) as [Hw1 Hdel1].
  destruct (cleanup_old_session_inactive w) as (w1 & Hclean & Hidle).
  rewrite Hclean in Hw1, Hdel1 |- *. simpl in Hw1, Hdel1.
  pose proof (store_in_step_idle w1 Hw1 Hidle) as Hnone.
  assert (store_in_step (World.mk SessionState.default (World.vector_store w1)))
    as Hrolled.
  { split; [apply consistent_default|]. split; simpl; [|apply Hnone].
    intros k. rewrite Hnone. split; [by intros [? ?] | discriminate]. }
  destruct (process_saved file env saved.1 saved.2 ds w1) as [[e|response] w']
    eqn:Hsaved; simpl.
  - apply process_saved_failure_world in Hsaved as [->| ->]; done.
  - apply process_saved_success_world in Hsaved
      as (doc & coll & _ & _ & Hcoll & Hsession & Hstore & _).
    simpl in Hstore. split.
    + split; [|split]; rewrite ?Hsession, ?Hstore; simpl.
      * unfold SessionManager.consistent. simpl. by split.
      * intros k. unfold SessionManager.collection_name. simpl.
        destruct (decide ("session_" +:+ String.substring 0 12 (Env.uuid_hex env) = k))
          as [<-|Hne].
        -- rewrite lookup_insert_eq. split; eauto.
        -- rewrite lookup_insert_ne, Hnone by done.
           split; [by intros [? ?] | by intros [= ?]].
      * rewrite lookup_insert_ne by done. apply Hnone.
    + rewrite Hstore. split; simpl.
      * intros k coll'. destruct (decide ("session_" +:+ String.substring 0 12 (Env.uuid_hex env) = k))
          as [<-|Hne].
        -- rewrite lookup_insert_eq. intros [= <-].
           eapply (proj2 Hdel1), Hcoll.
        -- rewrite lookup_insert_ne, Hnone by done. discriminate.
      * apply Hdel1.
Qed.

Lemma upload_keeps_store_in_step_witness :
  store_in_step
    (process_upload example_upload example_env example_document_service
       example_world).2
  ∧ deletes_cleanly
      (World.vector_store
         (process_upload example_upload example_env example_document_service
            example_world).2).
Proof.
  apply (upload_keeps_store_in_step example_upload example_env
           example_document_service example_world).
  - split; [|split].
    + unfold SessionManager.consistent. simpl. by split.
    + intros c. simpl. unfold SessionManager.collection_name. simpl.
      destruct (decide ("session_0123456789ab" = c)) as [<-|Hne].
      * rewrite lookup_singleton_eq. split; eauto.
      * rewrite lookup_singleton_ne by done.
        split; [by intros [? ?] | by intros [= ?]].
    + reflexivity.
  - split; simpl.
    + intros c coll.
      destruct (decide ("session_0123456789ab" = c)) as [<-|Hne].
      * rewrite lookup_singleton_eq. by intros [= <-].
      * by rewrite lookup_singleton_ne.
    + by intros documents name coll [= <-].
Defined.
End UploadBehaviour.

(** ** Validation and the document processor *)

Section ValidationAndProcessing.
Import DocumentService.

(** X26. For an upload with a non-empty ASCII filename and a reported size
    of 1 to 2^53 - 1 bytes (the sizes a float holds exactly, so that the
    division of the code loses nothing), validation looks at the extension
    first and at the size second: an extension (after the last dot,
    lower-cased) outside the allow-list is rejected whatever the size;
    otherwise the file is rejected as too large exactly when it has more
    than [max_file_size_mb * 2^20] bytes, a file of exactly that size
    passing. *)
Theorem validate_file_outcome (file : UploadFile.t) (ds : DocumentService.t)
    (name : string) (n : Z) :
  UploadFile.filename file = Some name → name ≠ "" → is_ascii name = true →
  UploadFile.size file = Some n → 0 < n < 2 ^ 53 →
  let allowed := Settings.allowed_extensions (_settings ds) in
  let max_size_mb := Settings.max_file_size_mb (_settings ds) in
  _validate_file file ds
  = if decide (extension_of name ∈ allowed) then
      if decide (n <= max_size_mb * (1024 * 1024)) then inr ()
      else inl (FileTooLargeError
                  (Qdiv (inject_Z n) (inject_Z (1024 * 1024))) max_size_mb)
    else inl (UnsupportedFileTypeError (extension_of name) allowed).
Proof.
  intros Hname Hne _ Hsize Hn allowed max_size_mb.
  assert (n ≠ 0) as Hn0 by lia.
  unfold _validate_file, check_extension, check_size.
  rewrite Hname, Hsize. simpl.
  apply String.eqb_neq in Hne as ->. apply Z.eqb_neq in Hn0 as ->. simpl.
  fold allowed max_size_mb.
  case_bool_decide; [rewrite decide_True by done|by rewrite decide_False].
  simpl.
  destruct (Qle_bool _ _) eqn:Hle; simpl.
  - apply Qle_bool_iff in Hle. unfold Qle in Hle. simpl in Hle.
    rewrite decide_True; [reflexivity | lia].
  - rewrite decide_False; [reflexivity|]. intros Hfits.
    assert (Qle_bool (Qdiv (inject_Z n) (inject_Z (1024 * 1024)))
              (inject_Z max_size_mb) = true) as Habs; [|congruence].
    apply Qle_bool_iff. unfold Qle. simpl. lia.
Qed.

Lemma validate_file_outcome_witness :
  let file :=
    UploadFile.mk (Some "Report.PDF") (Some (20 * 1024 * 1024 + 1)) (inr "") in
  _validate_file file example_document_service
  = if decide (extension_of "Report.PDF" ∈ ["pdf"; "txt"; "docx"]) then
      if decide (20 * 1024 * 1024 + 1 <= 20 * (1024 * 1024)) then inr ()
      else inl (FileTooLargeError
                  (Qdiv (inject_Z (20 * 1024 * 1024 + 1))
                     (inject_Z (1024 * 1024))) 20)
    else inl (UnsupportedFileTypeError (extension_of "Report.PDF")
                ["pdf"; "txt"; "docx"]).
Proof.
  apply (validate_file_outcome
           (UploadFile.mk (Some "Report.PDF") (Some (20 * 1024 * 1024 + 1))
              (inr ""))
           example_document_service "Report.PDF" (20 * 1024 * 1024 + 1)).
  - reflexivity.
  - discriminate.
  - reflexivity.
  - reflexivity.
  - lia.
Defined.

Lemma observed_pages_enrich (path file_extension : string)
    (chunks : list Document.t) :
  observed_pages (DocumentProcessor.enrich path file_extension <$> chunks)
  = observed_pages chunks.
Proof.
  unfold observed_pages.
  induction chunks as [|c chunks IH]; csimpl; [reflexivity|].
  rewrite IH. reflexivity.
Qed.

(** X27. [process_document] raises only [FileNotFoundError] (no file at the
    path), [ValueError] (an extension that has no loader, whatever the file
    holds) or [DocumentProcessingError] (any failure of the loader or the
    splitter). When it returns, the loader of the extension read the file
    and the splitter split what the loader returned (or, when the loader
    returned nothing, one empty document that names the file); the chunks
    of the result are the chunks the splitter produced, as many and in the
    same order, each with its text, page and chunk index untouched and the
    file name, the file type and the path written into its metadata;
    [total_chunks] is their number, and the file type is the lower-cased
    extension of the path, which has a loader. *)
Theorem process_document_result (path : string) (stored : option string)
    (dp : DocumentProcessor.t) :
  match DocumentProcessor.process_document path stored dp with
  | inl e =>
      (stored = None ∧ e = FileNotFoundError ("File not found: " +:+ path))
      ∨ ((extension_of path ∉ DocumentProcessor._LOADERS)
         ∧ ∃ message, e = ValueError message)
      ∨ (∃ message, e = DocumentProcessingError message)
  | inr doc =>
      ∃ content loaded produced,
        stored = Some content
        ∧ DocumentProcessor.load dp (extension_of path) path content
          = inr loaded
        ∧ DocumentProcessor.split_documents dp (documents_to_split path loaded)
          = inr produced
        ∧ Forall2 (enriched_from path) (ProcessedDocument.chunks doc) produced
        ∧ observed_pages (ProcessedDocument.chunks doc)
          = observed_pages produced
        ∧ ProcessedDocument.total_chunks doc = Z.of_nat (length produced)
        ∧ ProcessedDocument.total_chunks doc
          = Z.of_nat (length (ProcessedDocument.chunks doc))
        ∧ ProcessedDocument.filename doc = path_name path
        ∧ ProcessedDocument.file_type doc = extension_of path
        ∧ extension_of path ∈ DocumentProcessor._LOADERS
  end.
Proof.
  unfold DocumentProcessor.process_document.
  destruct stored as [content|]; [|by left].
  case_bool_decide as Hloader; [|right; left; eauto].
  unfold DocumentProcessor._load_document, reraise_as.
  destruct (DocumentProcessor.load dp _ _ _) as [e|documents] eqn:Hload; simpl.
  { right. right. eauto. }
  set (loaded := match documents with [] => _ | _ => _ end).
  assert (loaded = inr (documents_to_split path documents)) as ->
    by (subst loaded; by destruct documents).
  simpl.
  destruct (DocumentProcessor.split_documents dp _) as [e|chunks] eqn:Hsplit;
    simpl.
  { right. right. eauto. }
  exists content, documents, chunks.
  split; [reflexivity|]. split; [exact Hload|]. split; [exact Hsplit|].
  split.
  { apply Forall2_fmap_l, Forall_Forall2_diag, Forall_forall.
    intros chunk _. by repeat split. }
  split; [apply observed_pages_enrich|].
  split; [by rewrite length_fmap|].
  by repeat split.
Qed.
End ValidationAndProcessing.

(** ** The temp file keeps the extension of the upload *)

Section TempFileExtension.
Import DocumentService.

Lemma process_document_shape (path content : string) (dp : DocumentProcessor.t) :
  match DocumentProcessor.process_document path (Some content) dp with
  | inl _ => True
  | inr doc =>
      ProcessedDocument.file_type doc = extension_of path
      ∧ extension_of path ∈ DocumentProcessor._LOADERS
      ∧ ProcessedDocument.total_chunks doc
        = Z.of_nat (length (ProcessedDocument.chunks doc))
  end.
Proof.
  unfold DocumentProcessor.process_document.
  case_bool_decide as Hloader; [|done].
  destruct (reraise_as _ _) as [e|documents]; simpl; [done|].
  destruct (reraise_as _ _) as [e|chunks]; simpl; done.
Qed.

Lemma has_char_append (c : ascii) (s t : string) :
  has_char c (s +:+ t) = has_char c s || has_char c t.
Proof.
  induction s as [|c' s IH]; simpl; [reflexivity|].
  by rewrite IH, orb_assoc.
Qed.

Lemma length_append (s t : string) :
  String.length (s +:+ t) = (String.length s + String.length t)%nat.
Proof. induction s as [|c s IH]; simpl; [reflexivity | by rewrite IH]. Qed.

Lemma split_on_nonempty (sep : ascii) (s : string) : split_on sep s ≠ [].
Proof.
  induction s as [|c s IH]; simpl; [discriminate|].
  destruct (split_on sep s); [done|]. by destruct (Ascii.eqb c sep).
Qed.

Lemma split_on_plain (sep : ascii) (t : string) :
  has_char sep t = false → split_on sep t = [t].
Proof.
  induction t as [|c t IH]; simpl; [reflexivity|].
  intros [Hc Ht]%orb_false_elim. by rewrite (IH Ht), Hc.
Qed.

Lemma split_on_parts_plain (sep : ascii) (s : string) :
  Forall (fun part => has_char sep part = false) (split_on sep s).
Proof.
  induction s as [|c s IH]; simpl; [by repeat constructor|].
  destruct (split_on sep s) as [|part parts]; [by repeat constructor|].
  apply Forall_cons in IH as [Hpart Hparts].
  destruct (Ascii.eqb c sep) eqn:Hc; repeat constructor; simpl;
    rewrite ?Hc; done.
Qed.

Lemma split_on_last (sep : ascii) (d t : string) :
  has_char sep t = false →
  split_on sep (d +:+ String sep t) = split_on sep d ++ [t].
Proof.
  intros Ht. induction d as [|c d IH]; simpl.
  - by rewrite (split_on_plain sep t Ht), Ascii.eqb_refl.
  - rewrite IH. pose proof (split_on_nonempty sep d) as Hne.
    destruct (split_on sep d) as [|part parts]; [done|]. simpl.
    by destruct (Ascii.eqb c sep).
Qed.

Lemma path_name_plain (p : string) : has_char "/" (path_name p) = false.
Proof.
  unfold path_name.
  pose proof (split_on_parts_plain "/" p) as Hparts.
  destruct (last _) as [part|] eqn:Hlast; [|reflexivity]. simpl.
  apply last_Some in Hlast as [l Hl].
  assert (part ∈ filter (fun part => part ≠ "" ∧ part ≠ ".") (split_on "/" p))
    as Hin by (rewrite Hl; set_solver).
  apply list_elem_of_filter in Hin as [_ Hin].
  by apply (proj1 (Forall_forall _ _) Hparts).
Qed.

Lemma path_name_last (d t : string) :
  has_char "/" t = false → t ≠ "" → t ≠ "." →
  path_name (d +:+ String "/" t) = t.
Proof.
  intros Hplain Hne Hdot. unfold path_name.
  rewrite (split_on_last "/" d t Hplain), filter_app, filter_cons_True by done.
  by rewrite filter_nil, last_snoc.
Qed.

Lemma substring_from (b s : string) (m : nat) :
  String.substring (String.length b) m (b +:+ s) = String.substring 0 m s.
Proof. induction b as [|c b IH]; simpl; [reflexivity | exact IH]. Qed.

Lemma substring_full (s : string) :
  String.substring 0 (String.length s) s = s.
Proof. induction s as [|c s IH]; simpl; [reflexivity | by rewrite IH]. Qed.

Lemma has_char_substring (c : ascii) (s : string) :
  has_char c s = false → ∀ i m, has_char c (String.substring i m s) = false.
Proof.
  induction s as [|c' s IH]; intros Hs i m.
  - by destruct i, m.
  - simpl in Hs. apply orb_false_elim in Hs as [Hc Hs].
    destruct i, m; simpl; rewrite ?Hc, ?IH; done.
Qed.

(** The part of a name from its last dot on: a dot and a rest without dot. *)
Lemma rfind_dot_suffix (name : string) (i : nat) :
  rfind_dot name = Some i →
  ∃ rest,
    String.substring i (String.length name - i) name = String "." rest
    ∧ rfind_dot rest = None
    ∧ String.length name = (i + 1 + String.length rest)%nat.
Proof.
  revert i. induction name as [|c name IH]; intros i; simpl; [discriminate|].
  destruct (rfind_dot name) as [j|] eqn:Hj.
  - intros [= <-]. destruct (IH j eq_refl) as (rest & Hsub & Hrest & Hlen).
    exists rest. simpl. rewrite Hsub.
    split; [reflexivity|]. split; [exact Hrest | lia].
  - destruct (Ascii.eqb c ".") eqn:Hc; [|discriminate].
    intros [= <-]. exists name. apply Ascii.eqb_eq in Hc as ->. simpl.
    rewrite substring_full.
    split; [reflexivity|]. split; [exact Hj | lia].
Qed.

Lemma rfind_dot_append (b rest : string) :
  rfind_dot rest = None →
  rfind_dot (b +:+ String "." rest) = Some (String.length b).
Proof.
  intros Hrest. induction b as [|c b IH]; simpl.
  - by rewrite Hrest.
  - by rewrite IH.
Qed.

Lemma rfind_dot_none (s : string) :
  has_char "." s = false → rfind_dot s = None.
Proof.
  induction s as [|c s IH]; simpl; [reflexivity|].
  intros [Hc Hs]%orb_false_elim. by rewrite (IH Hs), Hc.
Qed.

(** The suffix of a name is empty, or a dot followed by at least one
    character, without slash and with no other dot. *)
Lemma path_suffix_shape (p : string) :
  path_suffix p = ""
  ∨ ∃ rest, path_suffix p = String "." rest ∧ rest ≠ ""
            ∧ rfind_dot rest = None ∧ has_char "/" rest = false.
Proof.
  unfold path_suffix.
  destruct (rfind_dot (path_name p)) as [i|] eqn:Hi; [|by left].
  destruct (Nat.ltb 0 i && Nat.ltb i (String.length (path_name p) - 1)) eqn:Hin;
    [|by left].
  right. apply andb_prop in Hin as [_ Hlt%Nat.ltb_lt].
  destruct (rfind_dot_suffix _ _ Hi) as (rest & Hsub & Hrest & Hlen).
  exists rest. rewrite Hsub.
  split; [reflexivity|]. split; [|split; [exact Hrest|]].
  - intros ->. simpl in Hlen. lia.
  - pose proof (has_char_substring "/" (path_name p) (path_name_plain p) i
                  (String.length (path_name p) - i)) as Hplain.
    rewrite Hsub in Hplain. simpl in Hplain. done.
Qed.

Lemma append_cons (x : ascii) (a b : string) :
  String x a +:+ b = String x (a +:+ b).
Proof. reflexivity. Qed.

Lemma append_assoc (a b c : string) : (a +:+ b) +:+ c = a +:+ (b +:+ c).
Proof.
  induction a as [|x a IH]; [reflexivity|].
  by rewrite !append_cons, IH.
Qed.

Lemma append_empty_r (a : string) : a +:+ "" = a.
Proof.
  induction a as [|x a IH]; [reflexivity|].
  by rewrite append_cons, IH.
Qed.

(** Appending the suffix of an upload's name to a temp name whose last
    component is plain gives a path with that same suffix. *)
Lemma path_suffix_temp (dir base p : string) :
  base ≠ "" → has_char "/" base = false → has_char "." base = false →
  path_suffix ((dir +:+ String "/" base) +:+ path_suffix p) = path_suffix p.
Proof.
  intros Hbase Hslash Hdot.
  assert (0 < String.length base)%nat as Hlen
    by (destruct base; [done | simpl; lia]).
  destruct (path_suffix_shape p) as [->|(rest & -> & Hrest & Hnodot & Hplain)].
  - rewrite append_empty_r.
    unfold path_suffix. rewrite path_name_last; [|done..|].
    + by rewrite (rfind_dot_none base Hdot).
    + intros ->. done.
  - rewrite append_assoc, append_cons.
    unfold path_suffix. rewrite path_name_last.
    + rewrite (rfind_dot_append base rest Hnodot), length_append. simpl.
      assert (0 < String.length rest)%nat
        by (destruct rest; [done | simpl; lia]).
      replace (Nat.ltb 0 (String.length base)) with true
        by (symmetry; by apply Nat.ltb_lt).
      replace (Nat.ltb (String.length base)
                 (String.length base + S (String.length rest) - 1)) with true
        by (symmetry; apply Nat.ltb_lt; lia).
      simpl.
      replace (String.length base + S (String.length rest) - String.length base)%nat
        with (String.length (String "." rest)) by (simpl; lia).
      by rewrite substring_from, substring_full.
    + rewrite has_char_append. simpl. by rewrite Hslash, Hplain.
    + destruct base; done.
    + destruct base as [|c [|c' base]]; simpl; done.
Qed.

(** X28. The temp file keeps the suffix of the uploaded file: when the name
    [NamedTemporaryFile] picks ends in a non-empty component without dot,
    the path [_save_temp_file] returns has the suffix, and so the
    lower-cased extension, of the upload's filename. *)
Theorem temp_file_keeps_extension (file : UploadFile.t) (env : Env.t)
    (name content dir base : string) :
  UploadFile.filename file = Some name → name ≠ "" →
  UploadFile.read file = inr content →
  Env.tmp_name env = dir +:+ String "/" base →
  base ≠ "" → has_char "/" base = false → has_char "." base = false →
  ∃ path,
    _save_temp_file file env = inr (path, content)
    ∧ path_suffix path = path_suffix name
    ∧ extension_of path = extension_of name.
Proof.
  intros Hname Hne Hread Htmp Hbase Hslash Hdot.
  exists (Env.tmp_name env +:+ path_suffix name).
  assert (path_suffix (Env.tmp_name env +:+ path_suffix name)
          = path_suffix name) as Hsuffix
    by (rewrite Htmp; by apply path_suffix_temp).
  split; [|split; [exact Hsuffix|]].
  - unfold _save_temp_file. rewrite Hname, Hread. simpl.
    by apply String.eqb_neq in Hne as ->.
  - unfold extension_of. by rewrite Hsuffix.
Qed.

Lemma temp_file_keeps_extension_witness :
  ∃ path,
    _save_temp_file wired_upload example_env = inr (path, "%PDF-1.7")
    ∧ path_suffix path = path_suffix "Annual Report.PDF"
    ∧ extension_of path = extension_of "Annual Report.PDF".
Proof.
  apply (temp_file_keeps_extension wired_upload example_env
           "Annual Report.PDF" "%PDF-1.7" "/tmp" "tmpab12cd").
  - reflexivity.
  - discriminate.
  - reflexivity.
  - reflexivity.
  - discriminate.
  - reflexivity.
  - reflexivity.
Defined.

(** The wired processor on the saved upload looks at the extension of the
    upload's filename. *)
Lemma wired_processor_extension (file : UploadFile.t) (env : Env.t)
    (name content dir base : string) (dp : DocumentProcessor.t)
    (settings : Settings.t) :
  UploadFile.filename file = Some name → name ≠ "" →
  UploadFile.read file = inr content →
  Env.tmp_name env = dir +:+ String "/" base →
  base ≠ "" → has_char "/" base = false → has_char "." base = false →
  ∃ path,
    _save_temp_file file env = inr (path, content)
    ∧ extension_of path = extension_of name
    ∧ _document_processor (get_document_service dp settings) path content
      = DocumentProcessor.process_document path (Some content) dp.
Proof.
  intros Hname Hne Hread Htmp Hbase Hslash Hdot.
  exists (Env.tmp_name env +:+ path_suffix name).
  assert (path_suffix (Env.tmp_name env +:+ path_suffix name)
          = path_suffix name) as Hsuffix
    by (rewrite Htmp; by apply path_suffix_temp).
  split; [|split; [|reflexivity]].
  - unfold _save_temp_file. rewrite Hname, Hread. simpl.
    by apply String.eqb_neq in Hne as ->.
  - unfold extension_of. by rewrite Hsuffix.
Qed.

(** X29. The allow-list of the settings and the loaders of the processor
    are two lists: an upload whose extension the settings allow but for
    which the processor has no loader passes validation, has the old
    session cleaned up, and only then is rejected as an unsupported file
    type, with the store as the clean-up left it. *)
Theorem allowed_extension_without_loader (file : UploadFile.t) (env : Env.t)
    (name content dir base : string) (dp : DocumentProcessor.t)
    (settings : Settings.t) (w : World.t) :
  UploadFile.filename file = Some name → name ≠ "" →
  UploadFile.read file = inr content →
  Env.tmp_name env = dir +:+ String "/" base →
  base ≠ "" → has_char "/" base = false → has_char "." base = false →
  _validate_file file (get_document_service dp settings) = inr () →
  extension_of name ∉ DocumentProcessor._LOADERS →
  process_upload file env (get_document_service dp settings) w
  = (inl (UnsupportedFileTypeError (extension_of name)
            (Settings.allowed_extensions settings)),
     (_cleanup_old_session w).2).
Proof.
  intros Hname Hne Hread Htmp Hbase Hslash Hdot Hvalid Hloader.
  destruct (wired_processor_extension file env name content dir base dp
              settings Hname Hne Hread Htmp Hbase Hslash Hdot)
    as (path & Hsaved & Hext & _).
  destruct (cleanup_old_session_inactive w) as (w1 & Hclean & _).
  unfold process_upload, process_upload_body, process_saved. upload_unfold.
  rewrite Hvalid, Hsaved, Hclean. simpl.
  unfold DocumentProcessor.process_document. rewrite Hext.
  by rewrite bool_decide_eq_false_2.
Qed.

Lemma allowed_extension_without_loader_witness :
  process_upload markdown_upload example_env
    (get_document_service example_processor markdown_settings) example_world
  = (inl (UnsupportedFileTypeError (extension_of "notes.md") ["pdf"; "md"]),
     (_cleanup_old_session example_world).2).
Proof.
  apply (allowed_extension_without_loader markdown_upload example_env
           "notes.md" "# Notes" "/tmp" "tmpab12cd" example_processor
           markdown_settings example_world).
  - reflexivity.
  - discriminate.
  - reflexivity.
  - reflexivity.
  - discriminate.
  - reflexivity.
  - reflexivity.
  - vm_compute. reflexivity.
  - intros Hin. vm_compute in Hin.
    repeat (apply elem_of_cons in Hin as [Hin|Hin]; [discriminate|]).
    inversion Hin.
Defined.

(** X30. With the wired processor, the response of a successful upload names
    the uploaded file and gives as file type the lower-cased extension of
    its name, which is one of pdf, docx and txt. *)
Theorem wired_upload_response (file : UploadFile.t) (env : Env.t)
    (name content dir base : string) (dp : DocumentProcessor.t)
    (settings : Settings.t) (w w' : World.t)
    (response : DocumentUploadResponse.t) :
  UploadFile.filename file = Some name → name ≠ "" →
  UploadFile.read file = inr content →
  Env.tmp_name env = dir +:+ String "/" base →
  base ≠ "" → has_char "/" base = false → has_char "." base = false →
  process_upload file env (get_document_service dp settings) w
  = (inr response, w') →
  DocumentUploadResponse.filename response = name
  ∧ DocumentUploadResponse.file_type response = extension_of name
  ∧ extension_of name ∈ ["pdf"; "docx"; "txt"].
Proof.
  intros Hname Hne Hread Htmp Hbase Hslash Hdot Hup.
  destruct (wired_processor_extension file env name content dir base dp
              settings Hname Hne Hread Htmp Hbase Hslash Hdot)
    as (path & Hsaved & Hext & Hproc).
  apply process_upload_success_inv in Hup
    as (path' & content' & _ & Hsaved' & Hrest).
  rewrite Hsaved in Hsaved'. injection Hsaved' as <- <-.
  revert Hrest. unfold process_saved. upload_unfold. rewrite Hproc.
  pose proof (process_document_shape path content dp) as Hshape.
  destruct (DocumentProcessor.process_document path (Some content) dp)
    as [e|doc]; simpl; [discriminate|].
  destruct Hshape as (Htype & Hloader & Hcount).
  destruct (Z.ltb _ _); simpl; [discriminate|].
  destruct (VectorStoreService.create_collection _ _ _) as [[e|n] store'];
    simpl; [discriminate|].
  intros [= <- _]. simpl. rewrite Hname. simpl.
  apply String.eqb_neq in Hne as ->. simpl.
  rewrite Htype, <- Hext. repeat split. exact Hloader.
Qed.

Lemma wired_upload_response_witness :
  DocumentUploadResponse.filename
    (DocumentUploadResponse.mk "Annual Report.PDF" "pdf" 2
       "Document uploaded and processed successfully")
  = "Annual Report.PDF"
  ∧ DocumentUploadResponse.file_type
      (DocumentUploadResponse.mk "Annual Report.PDF" "pdf" 2
         "Document uploaded and processed successfully")
    = extension_of "Annual Report.PDF"
  ∧ extension_of "Annual Report.PDF" ∈ ["pdf"; "docx"; "txt"].
Proof.
  apply (wired_upload_response wired_upload example_env "Annual Report.PDF"
           "%PDF-1.7" "/tmp" "tmpab12cd" example_processor Settings.default
           example_world
           (process_upload wired_upload example_env
              (get_document_service example_processor Settings.default)
              example_world).2).
  - reflexivity.
  - discriminate.
  - reflexivity.
  - reflexivity.
  - discriminate.
  - reflexivity.
  - reflexivity.
  - vm_compute. reflexivity.
Defined.
End TempFileExtension.
